(** * pytest-prometheus: the event reducer and the report builder

    A shallow embedding of [src/pytest_prometheus/__init__.py]
    (class [PrometheusReport]) and the properties of its outcome
    aggregation and report construction.

    Conventions of the embedding.
    - A Python [str] is a [string]; one [ascii] stands for one character
      (code point) of the Python string.
    - A Python [dict] is an insertion-ordered association list with unique
      keys ([PyDict]): [d[k] = v] overwrites in place or appends, and
      [list(d.keys())] is the keys in insertion order.
    - Methods run in a state-and-exception monad [M] over the [World]
      (the plugin object, the records emitted through [logging], the
      pushes made to the gateway). State written before an exception is
      raised stays written, as in Python.
    - [prometheus_client] is an external library: what its calls decide
      (whether [Gauge(...)], [gauge.labels(...)] or [push_to_gateway]
      raise) is a parameter of the report builder. *)

From Stdlib Require Import String Ascii List Bool NArith Arith Lia Permutation.
Import ListNotations.
Open Scope string_scope.
Open Scope list_scope.

(** ** Strings and the regular expression of [_make_metric_name] *)

Module PyStr.

(** [c] lies in the range [lo-hi] of a character class. *)
Definition in_range (lo hi c : ascii) : bool :=
  (N_of_ascii lo <=? N_of_ascii c)%N && (N_of_ascii c <=? N_of_ascii hi)%N.

(** The class [[^a-zA-Z0-9_]] of [pattern]: the characters the
    substitution replaces. *)
Definition pattern_matches (c : ascii) : bool :=
  negb (in_range "a" "z" c || in_range "A" "Z" c || in_range "0" "9" c
        || Ascii.eqb c "_").

(** [re.sub(pattern, replacement, s)] for a pattern that is one character
    class: the matches are the single characters of the class, none
    overlap, and each is replaced by [replacement]. *)
Fixpoint re_sub_class (matches : ascii -> bool) (replacement : string)
         (s : string) : string :=
  match s with
  | EmptyString => EmptyString
  | String c rest =>
      if matches c
      then (replacement ++ re_sub_class matches replacement rest)%string
      else String c (re_sub_class matches replacement rest)
  end.

(** The alphabet the specification writes as [[A-Za-z0-9_]], spelled
    out character by character. *)
Definition spec_alphabet : list ascii :=
  list_ascii_of_string
    "ABCDEFGHIJKLMNOPQRSTUVWXYZabcdefghijklmnopqrstuvwxyz0123456789_".

Definition in_spec_alphabet (c : ascii) : bool :=
  existsb (Ascii.eqb c) spec_alphabet.

End PyStr.

(** ** Python dictionaries: insertion-ordered, unique keys *)

Module PyDict.
Section Dict.
Context {V : Type}.

Definition dict := list (string * V).

(** [d.get(k)] / [d[k]] when present. *)
Fixpoint get (k : string) (d : dict) : option V :=
  match d with
  | [] => None
  | (k', v) :: rest => if String.eqb k k' then Some v else get k rest
  end.

(** [k in d] *)
Definition contains (k : string) (d : dict) : bool :=
  match get k d with Some _ => true | None => false end.

(** [d[k] = v]: an existing key keeps its position, a new key goes last. *)
Fixpoint set (k : string) (v : V) (d : dict) : dict :=
  match d with
  | [] => [(k, v)]
  | (k', v') :: rest =>
      if String.eqb k k' then (k', v) :: rest else (k', v') :: set k v rest
  end.

(** [list(d.keys())] *)
Definition keys (d : dict) : list string := map fst d.

(** [d.items()] *)
Definition items (d : dict) : list (string * V) := d.

End Dict.
Arguments dict V : clear implicits.
End PyDict.

Abbreviation dict := PyDict.dict.

(** ** Data model *)

(** The values the code stores under ['status'] besides [None]. *)
Inductive FinalStatus := passed | failed | skipped.

(** The record [{'status': None, 'phase': None}] kept per test name. *)
Record TestRecord := mkTestRecord {
  status : option FinalStatus;
  phase : option string
}.

(** The [report] object handed to [pytest_runtest_logreport]. An attribute
    the object does not have is [None]. [location] is the tuple
    [(fspath, lineno, domain)], of which the code reads item 2 only; its
    items are kept as strings. [when] and [outcome] are arbitrary strings:
    the code compares them with ['call'], ['setup'], ['passed'], ['failed']
    and ['skipped'] and nothing else. *)
Record Report := mkTestReport {
  location : option (list string);
  when : option string;
  outcome : option string
}.

(** Exceptions; all of them derive from [Exception]. *)
Inductive exn :=
| AttributeError (attr : string)
| IndexError
| KeyError (key : string)
| ValueError (msg : string)
| OtherException (msg : string).

Inductive LogLevel := WARNING | ERROR.

(** The f-strings passed to [logging], one constructor per call site. *)
Inductive LogMessage :=
| SkippingInvalidLabelFormat (label : string)
| ErrorProcessingTestReport (e : exn)
| ErrorIncrementingMetric (test : string) (e : exn)
| ErrorInSessionFinish (e : exn).

Definition LogRecord := (LogLevel * LogMessage)%type.

(** A gauge of [prometheus_client]: its series are keyed by the tuple of
    label values, in the order of [labelnames]. *)
Record Gauge := mkGauge {
  g_name : string;
  g_documentation : string;
  g_labelnames : list string;
  g_samples : list (list string * N)
}.

(** A [CollectorRegistry]: the gauges registered with it, in order. *)
Definition CollectorRegistry := list Gauge.

Record PrometheusReport := mkPrometheusReport {
  prefix : string;
  pushgateway_url : string;
  job_name : option string;
  extra_labels : dict string;
  registry : CollectorRegistry;
  test_results : dict TestRecord
}.

(** What [push_to_gateway(url, registry=..., job=...)] sent. *)
Definition Push := (string * CollectorRegistry * option string)%type.

Record World := mkWorld {
  self : PrometheusReport;
  log : list LogRecord;
  gateway : list Push
}.

Definition with_test_results (tr : dict TestRecord) (w : World) : World :=
  let p := self w in
  mkWorld (mkPrometheusReport (prefix p) (pushgateway_url p) (job_name p)
             (extra_labels p) (registry p) tr)
          (log w) (gateway w).

Definition with_registry (reg : CollectorRegistry) (w : World) : World :=
  let p := self w in
  mkWorld (mkPrometheusReport (prefix p) (pushgateway_url p) (job_name p)
             (extra_labels p) reg (test_results p))
          (log w) (gateway w).

Definition with_log (l : list LogRecord) (w : World) : World :=
  mkWorld (self w) l (gateway w).

Definition with_gateway (g : list Push) (w : World) : World :=
  mkWorld (self w) (log w) g.

(** ** The monad of method bodies *)

Inductive result (A : Type) :=
| Ok (a : A)
| Raise (e : exn).
Arguments Ok {A} a.
Arguments Raise {A} e.

Definition M (A : Type) := World -> result A * World.

Definition ret {A} (a : A) : M A := fun w => (Ok a, w).

Definition bind {A B} (c : M A) (k : A -> M B) : M B :=
  fun w => match c w with
           | (Ok a, w') => k a w'
           | (Raise e, w') => (Raise e, w')
           end.

Definition raise {A} (e : exn) : M A := fun w => (Raise e, w).

Definition gets {A} (f : World -> A) : M A := fun w => (Ok (f w), w).

Definition modify (f : World -> World) : M unit := fun w => (Ok tt, f w).

(** [try: body  except Exception as e: handler e] *)
Definition try_except {A} (body : M A) (handler : exn -> M A) : M A :=
  fun w => match body w with
           | (Ok a, w') => (Ok a, w')
           | (Raise e, w') => handler e w'
           end.

Declare Scope py_scope.
Delimit Scope py_scope with py.
Notation "x <- c1 ;; c2" := (bind c1 (fun x => c2))
  (at level 61, c1 at next level, right associativity) : py_scope.
Notation "c1 ;; c2" := (bind c1 (fun _ => c2))
  (at level 61, right associativity) : py_scope.
Open Scope py_scope.

(** [for x in xs: body x] *)
Fixpoint for_each {A} (xs : list A) (body : A -> M unit) : M unit :=
  match xs with
  | [] => ret tt
  | x :: rest => body x ;; for_each rest body
  end.

Definition logging_warning (m : LogMessage) : M unit :=
  modify (fun w => with_log (log w ++ [(WARNING, m)]) w).

Definition logging_error (m : LogMessage) : M unit :=
  modify (fun w => with_log (log w ++ [(ERROR, m)]) w).

(** [obj.attr] on an attribute that may be missing. *)
Definition getattr {A} (attr : string) (v : option A) : M A :=
  match v with
  | Some a => ret a
  | None => raise (AttributeError attr)
  end.

(** [seq[i]] on a tuple. *)
Definition subscript {A} (seq : list A) (i : nat) : M A :=
  match nth_error seq i with
  | Some a => ret a
  | None => raise IndexError
  end.

(** [self.test_results[name]] *)
Definition test_results_getitem (name : string) : M TestRecord :=
  tr <- gets (fun w => test_results (self w)) ;;
  match PyDict.get name tr with
  | Some r => ret r
  | None => raise (KeyError name)
  end.

(** [self.test_results[name] = r] *)
Definition test_results_setitem (name : string) (r : TestRecord) : M unit :=
  modify (fun w => with_test_results (PyDict.set name r (test_results (self w))) w).

(** [self.test_results[name]['status'] = st] *)
Definition set_status (name : string) (st : FinalStatus) : M unit :=
  r <- test_results_getitem name ;;
  test_results_setitem name (mkTestRecord (Some st) (phase r)).

(** ** [PrometheusReport._make_metric_name] and [_make_labels] *)

Definition make_metric_name (pfx name : string) : string :=
  let unsanitized_name := (pfx ++ name)%string in
  PyStr.re_sub_class PyStr.pattern_matches "_" unsanitized_name.

Definition _make_metric_name (name : string) : M string :=
  pfx <- gets (fun w => prefix (self w)) ;;
  ret (make_metric_name pfx name).

Definition make_labels (extra : dict string) (testname : string) : dict string :=
  let labels := extra in
  PyDict.set "testname" testname labels.

Definition _make_labels (testname : string) : M (dict string) :=
  extra <- gets (fun w => extra_labels (self w)) ;;
  ret (make_labels extra testname).

Definition _get_label_names : M (list string) :=
  labels <- _make_labels EmptyString ;;
  ret (PyDict.keys labels).

(** ** [PrometheusReport.__init__] *)

(** [s.split(sep, 1)] for a one-character separator: one piece when [sep]
    does not occur, else the text before and the text after its first
    occurrence. *)
Fixpoint str_split_once (sep : ascii) (s : string) : list string :=
  match s with
  | EmptyString => [EmptyString]
  | String c rest =>
      if Ascii.eqb c sep then [EmptyString; rest]
      else match str_split_once sep rest with
           | [a; b] => [String c a; b]
           | _ => [s]
           end
  end.

(** One turn of [for label in extra_labels_raw]: unpacking into
    [key, value] raises [ValueError] unless there are two pieces, and the
    handler logs a warning. *)
Definition init_label_step (acc : dict string * list LogRecord) (label : string)
  : dict string * list LogRecord :=
  let '(labels, lg) := acc in
  match str_split_once "=" label with
  | [key; value] => (PyDict.set key value labels, lg)
  | _ => (labels, lg ++ [(WARNING, SkippingInvalidLabelFormat label)])
  end.

(** The world after [PrometheusReport(config)], from the option values. *)
Definition PrometheusReport_init (pfx url : string) (job : option string)
           (extra_labels_raw : list string) : World :=
  let '(labels, lg) := fold_left init_label_step extra_labels_raw ([], []) in
  mkWorld (mkPrometheusReport pfx url job labels [] []) lg [].

(** ** The event reducer: [pytest_runtest_logreport] *)

(** [current_status in ('failed', 'passed')] *)
Definition in_failed_passed (current_status : option FinalStatus) : bool :=
  match current_status with
  | Some failed | Some passed => true
  | _ => false
  end.

Definition logreport_body (report : Report) : M unit :=
  match location report with
  | None => ret tt
  | Some loc =>
      funcname <- subscript loc 2 ;;
      name <- _make_metric_name funcname ;;
      tr <- gets (fun w => test_results (self w)) ;;
      (if negb (PyDict.contains name tr)
       then test_results_setitem name (mkTestRecord None None)
       else ret tt) ;;
      r <- test_results_getitem name ;;
      let current_status := status r in
      if in_failed_passed current_status then ret tt
      else
        when_ <- getattr "when" (when report) ;;
        if (when_ =? "call")%string then
          outcome_ <- getattr "outcome" (outcome report) ;;
          if (outcome_ =? "passed")%string then set_status name passed
          else if (outcome_ =? "failed")%string then set_status name failed
          else ret tt
        else if (when_ =? "setup")%string then
          outcome_ <- getattr "outcome" (outcome report) ;;
          if (outcome_ =? "skipped")%string then set_status name skipped
          else if (outcome_ =? "failed")%string then set_status name failed
          else ret tt
        else ret tt
  end.

Definition pytest_runtest_logreport (report : Report) : M unit :=
  try_except (logreport_body report)
             (fun e => logging_error (ErrorProcessingTestReport e)).

(** The world after the reports [reports] were delivered in order. *)
Definition deliver (reports : list Report) (w : World) : World :=
  fold_left (fun w r => snd (pytest_runtest_logreport r w)) reports w.

(** The status recorded for [name]: [None] when there is no record or the
    record still holds [None]. *)
Definition status_in (tr : dict TestRecord) (name : string)
  : option FinalStatus :=
  match PyDict.get name tr with
  | Some r => status r
  | None => None
  end.

Definition status_of (w : World) (name : string) : option FinalStatus :=
  status_in (test_results (self w)) name.

(** The name under which a report is recorded, when it has one. *)
Definition identity (pfx : string) (report : Report) : option string :=
  match location report with
  | Some loc => option_map (make_metric_name pfx) (nth_error loc 2)
  | None => None
  end.

(** The plugin as [__init__] leaves it, the extra labels already parsed. *)
Definition init (pfx url : string) (job : option string) (extra : dict string)
  : World :=
  mkWorld (mkPrometheusReport pfx url job extra [] []) [] [].

(** ** The report builder: [pytest_sessionfinish] *)

(** The four lists [total], [passed], [failed], [skipped] that
    [pytest_sessionfinish] prepares. *)
Record Groups := mkGroups {
  total_tests : list string;
  passed_tests : list string;
  failed_tests : list string;
  skipped_tests : list string
}.

(** One turn of [for name, result in self.test_results.items()]. *)
Definition categorize_step (g : Groups) (item : string * TestRecord) : Groups :=
  let '(name, result) := item in
  match status result with
  | Some passed =>
      mkGroups (total_tests g) (passed_tests g ++ [name]) (failed_tests g)
               (skipped_tests g)
  | Some failed =>
      mkGroups (total_tests g) (passed_tests g) (failed_tests g ++ [name])
               (skipped_tests g)
  | Some skipped =>
      mkGroups (total_tests g) (passed_tests g) (failed_tests g)
               (skipped_tests g ++ [name])
  | None => g
  end.

Definition categorize (tr : dict TestRecord) : Groups :=
  let total := PyDict.keys tr in
  fold_left categorize_step (PyDict.items tr) (mkGroups total [] [] []).

Fixpoint labelvalues_eqb (a b : list string) : bool :=
  match a, b with
  | [], [] => true
  | x :: a', y :: b' => (x =? y)%string && labelvalues_eqb a' b'
  | _, _ => false
  end.

(** [.inc()] on the child of the series [key], created at 0 on first use. *)
Fixpoint inc_sample (key : list string) (samples : list (list string * N))
  : list (list string * N) :=
  match samples with
  | [] => [(key, 1%N)]
  | (k, v) :: rest =>
      if labelvalues_eqb key k then (k, (v + 1)%N) :: rest
      else (k, v) :: inc_sample key rest
  end.

(** The tuple of label values of [labels], in the order of [labelnames];
    [None] when a label name has no value among the keyword arguments. *)
Fixpoint labelvalues (labelnames : list string) (labels : dict string)
  : option (list string) :=
  match labelnames with
  | [] => Some []
  | l :: rest =>
      match PyDict.get l labels, labelvalues rest labels with
      | Some v, Some vs => Some (v :: vs)
      | _, _ => None
      end
  end.

Fixpoint update_nth {A} (i : nat) (f : A -> A) (l : list A) : list A :=
  match l, i with
  | [], _ => []
  | x :: rest, O => f x :: rest
  | x :: rest, S i' => x :: update_nth i' f rest
  end.

Section ReportBuilder.

(** What [prometheus_client] decides: whether the constructor [Gauge(...)]
    raises (it validates the metric and label names against the
    registry), whether [gauge.labels(...).inc()] raises, whether
    [push_to_gateway] raises. *)
Variable Gauge_raises :
  string -> string -> list string -> CollectorRegistry -> option exn.
Variable labels_inc_raises : Gauge -> dict string -> option exn.
Variable push_raises :
  string -> CollectorRegistry -> option string -> option exn.

(** [Gauge(name, documentation, labelnames=..., registry=self.registry)]:
    the new gauge is registered at once; the value returned is its place
    in the registry, through which the loop below reaches it. *)
Definition Gauge_new (name documentation : string) (labelnames : list string)
  : M nat :=
  reg <- gets (fun w => registry (self w)) ;;
  match Gauge_raises name documentation labelnames reg with
  | Some e => raise e
  | None =>
      modify (with_registry (reg ++ [mkGauge name documentation labelnames []])) ;;
      ret (length reg)
  end.

(** [gauge.labels(...).inc()] *)
Definition gauge_labels_inc (gauge : nat) (labels : dict string) : M unit :=
  reg <- gets (fun w => registry (self w)) ;;
  match nth_error reg gauge with
  | None => raise (OtherException "gauge is not registered")
  | Some g =>
      match labels_inc_raises g labels with
      | Some e => raise e
      | None =>
          match labelvalues (g_labelnames g) labels with
          | None => raise (ValueError "Incorrect label names")
          | Some key =>
              modify (with_registry
                (update_nth gauge
                   (fun g => mkGauge (g_name g) (g_documentation g)
                               (g_labelnames g) (inc_sample key (g_samples g)))
                   reg))
          end
      end
  end.

(** [push_to_gateway(url, registry=registry, job=job)] *)
Definition push_to_gateway (url : string) (reg : CollectorRegistry)
           (job : option string) : M unit :=
  match push_raises url reg job with
  | Some e => raise e
  | None => modify (fun w => with_gateway (gateway w ++ [(url, reg, job)]) w)
  end.

(** The body of [for test in test_list], with its own [try]. *)
Definition increment_series (gauge : nat) (test : string) : M unit :=
  try_except
    (labels <- _make_labels test ;;
     gauge_labels_inc gauge labels)
    (fun e => logging_error (ErrorIncrementingMetric test e)).

(** The body of [for metric_name, test_list, description in metrics]. *)
Definition build_metric (label_names : list string)
           (metric : string * list string * string) : M unit :=
  let '(metric_name, test_list, description) := metric in
  name <- _make_metric_name metric_name ;;
  gauge <- Gauge_new name description label_names ;;
  for_each test_list (increment_series gauge).

Definition metrics_of (g : Groups) : list (string * list string * string) :=
  [ ("total", total_tests g, "Total number of tests executed");
    ("passed", passed_tests g, "Number of passed tests");
    ("failed", failed_tests g, "Number of failed tests");
    ("skipped", skipped_tests g, "Number of skipped tests") ].

Definition sessionfinish_body : M unit :=
  tr <- gets (fun w => test_results (self w)) ;;
  let groups := categorize tr in
  label_names <- _get_label_names ;;
  let metrics := metrics_of groups in
  for_each metrics (build_metric label_names) ;;
  url <- gets (fun w => pushgateway_url (self w)) ;;
  reg <- gets (fun w => registry (self w)) ;;
  job <- gets (fun w => job_name (self w)) ;;
  push_to_gateway url reg job.

Definition pytest_sessionfinish : M unit :=
  try_except sessionfinish_body
             (fun e => logging_error (ErrorInSessionFinish e)).

End ReportBuilder.

(** ** [pytest_configure] and [pytest_unconfigure] *)

(** The [config] object: the values [getoption] returns for the four
    options ([None] for an option not given), the attribute [_prometheus]
    ([None] when the attribute is not set) and the plugin manager. The
    plugin manager belongs to pytest; its state is kept abstract. *)
Record Config (PluginManager : Type) := mkConfig {
  prometheus_pushgateway_url : option string;
  prometheus_metric_prefix : option string;
  prometheus_extra_label : option (list string);
  prometheus_job_name : option string;
  _prometheus : option PrometheusReport;
  pluginmanager : PluginManager
}.
Arguments mkConfig {PluginManager}.
Arguments prometheus_pushgateway_url {PluginManager}.
Arguments prometheus_metric_prefix {PluginManager}.
Arguments prometheus_extra_label {PluginManager}.
Arguments prometheus_job_name {PluginManager}.
Arguments _prometheus {PluginManager}.
Arguments pluginmanager {PluginManager}.

(** The truth value of an option value: [None] and the empty string are
    false. *)
Definition truthy (v : option string) : bool :=
  match v with
  | Some s => negb (s =? EmptyString)%string
  | None => false
  end.

Section Configure.

Variable PluginManager : Type.
(** [pluginmanager.register(plugin)] and [pluginmanager.unregister(plugin)]
    of pytest. *)
Variable register : PrometheusReport -> PluginManager -> PluginManager.
Variable unregister : PrometheusReport -> PluginManager -> PluginManager.

(** [PrometheusReport(config)]: the new plugin and what its [__init__]
    logged. Called only where both options are strings. *)
Definition PrometheusReport_new (config : Config PluginManager)
  : PrometheusReport * list LogRecord :=
  let pfx := match prometheus_metric_prefix config with
             | Some s => s
             | None => EmptyString
             end in
  let url := match prometheus_pushgateway_url config with
             | Some s => s
             | None => EmptyString
             end in
  let extra_labels_raw := match prometheus_extra_label config with
                          | Some l => l
                          | None => []
                          end in
  let w := PrometheusReport_init pfx url (prometheus_job_name config)
             extra_labels_raw in
  (self w, log w).

Definition pytest_configure (config : Config PluginManager) (lg : list LogRecord)
  : Config PluginManager * list LogRecord :=
  if truthy (prometheus_pushgateway_url config)
     && truthy (prometheus_metric_prefix config)
  then
    let '(plugin, warnings) := PrometheusReport_new config in
    (mkConfig (prometheus_pushgateway_url config)
              (prometheus_metric_prefix config)
              (prometheus_extra_label config)
              (prometheus_job_name config)
              (Some plugin)
              (register plugin (pluginmanager config)),
     lg ++ warnings)
  else (config, lg).

Definition pytest_unconfigure (config : Config PluginManager)
  : Config PluginManager :=
  let prometheus := _prometheus config in
  match prometheus with
  | Some plugin =>
      mkConfig (prometheus_pushgateway_url config)
               (prometheus_metric_prefix config)
               (prometheus_extra_label config)
               (prometheus_job_name config)
               None
               (unregister plugin (pluginmanager config))
  | None => config
  end.

End Configure.

(** ** Derived descriptions used by the properties *)

(** What the specification asks of one character. *)
Definition spec_sanitize_char (c : ascii) : ascii :=
  if PyStr.in_spec_alphabet c then c else "_"%char.

(** The status a report asks to record, if any: the two [if]/[elif]
    ladders of the reducer read off the report alone. *)
Definition classification (report : Report) : option FinalStatus :=
  match when report with
  | None => None
  | Some when_ =>
      if (when_ =? "call")%string then
        match outcome report with
        | None => None
        | Some outcome_ =>
            if (outcome_ =? "passed")%string then Some passed
            else if (outcome_ =? "failed")%string then Some failed
            else None
        end
      else if (when_ =? "setup")%string then
        match outcome report with
        | None => None
        | Some outcome_ =>
            if (outcome_ =? "skipped")%string then Some skipped
            else if (outcome_ =? "failed")%string then Some failed
            else None
        end
      else None
  end.

(** The attribute whose absence stops the classification of a report. *)
Definition missing_attribute (report : Report) : option string :=
  match when report with
  | None => Some "when"
  | Some when_ =>
      if (when_ =? "call")%string || (when_ =? "setup")%string then
        match outcome report with
        | None => Some "outcome"
        | Some _ => None
        end
      else None
  end.

(** The record of [name] is there afterwards, created empty if need be. *)
Definition ensure_record (name : string) (tr : dict TestRecord) : dict TestRecord :=
  if PyDict.contains name tr then tr
  else PyDict.set name (mkTestRecord None None) tr.

(** [test_results] after a report, as a function of [test_results] before. *)
Definition reduce (pfx : string) (r : Report) (tr : dict TestRecord)
  : dict TestRecord :=
  match identity pfx r with
  | None => tr
  | Some name =>
      let tr1 := ensure_record name tr in
      match PyDict.get name tr1 with
      | None => tr1
      | Some rec =>
          if in_failed_passed (status rec) then tr1
          else match classification r with
               | Some st => PyDict.set name (mkTestRecord (Some st) (phase rec)) tr1
               | None => tr1
               end
      end
  end.

(** The exception the body of the reducer raises on a report, if any. *)
Definition fault (pfx : string) (r : Report) (tr : dict TestRecord) : option exn :=
  match location r with
  | None => None
  | Some loc =>
      match nth_error loc 2 with
      | None => Some IndexError
      | Some funcname =>
          let name := make_metric_name pfx funcname in
          match PyDict.get name tr with
          | Some rec =>
              if in_failed_passed (status rec) then None
              else option_map AttributeError (missing_attribute r)
          | None => option_map AttributeError (missing_attribute r)
          end
      end
  end.

Definition step (report : Report) (w : World) : World :=
  snd (pytest_runtest_logreport report w).

(** The world a report leaves behind when the body runs to its end or to
    its fault. *)
Definition reduced (r : Report) (w : World) : World :=
  with_test_results (reduce (prefix (self w)) r (test_results (self w))) w.

(** The names resolved by the reports of a run, one per report that has
    one, in order of delivery. *)
Definition identities (pfx : string) (reports : list Report) : list string :=
  flat_map (fun r => match identity pfx r with
                     | Some name => [name]
                     | None => []
                     end) reports.

(** The item's record holds the status [st]. *)
Definition has_status (st : FinalStatus) (item : string * TestRecord) : bool :=
  match status (snd item), st with
  | Some passed, passed | Some failed, failed | Some skipped, skipped => true
  | _, _ => false
  end.

(** A gauge grew: same name, documentation and label names, and every
    series is still there with a value at least as large. *)
Definition gauge_le (g g' : Gauge) : Prop :=
  g_name g' = g_name g
  /\ g_documentation g' = g_documentation g
  /\ g_labelnames g' = g_labelnames g
  /\ forall key v, In (key, v) (g_samples g) ->
                   exists v', (v <= v')%N /\ In (key, v') (g_samples g').

(** A registry grew: every registered gauge is still in its place, grown. *)
Definition registry_le (reg reg' : CollectorRegistry) : Prop :=
  forall j g, nth_error reg j = Some g ->
              exists g', nth_error reg' j = Some g' /\ gauge_le g g'.

(** What building the report may change in the world: the registry and
    the log grow, the pushes aside. *)
Definition builds (w w' : World) : Prop :=
  prefix (self w') = prefix (self w)
  /\ extra_labels (self w') = extra_labels (self w)
  /\ test_results (self w') = test_results (self w)
  /\ registry_le (registry (self w)) (registry (self w'))
  /\ incl (log w) (log w').





(** [c] occurs in [s]. *)
Definition has_char (c : ascii) (s : string) : bool :=
  existsb (fun x => Ascii.eqb x c) (list_ascii_of_string s).

(** Every character of [s] is one of [[A-Za-z0-9_]]. *)
Definition clean (s : string) : Prop :=
  forall c, In c (list_ascii_of_string s) -> PyStr.in_spec_alphabet c = true.

(** The warning [__init__] logs for a label it cannot split. *)
Definition skipped_label (label : string) : LogRecord :=
  (WARNING, SkippingInvalidLabelFormat label).

(** [passed] and [failed] are final. *)
Definition is_terminal (st : FinalStatus) : bool :=
  match st with
  | passed | failed => true
  | skipped => false
  end.

(** The statuses the reports of a run ask to record for the name [n], in
    order of delivery. *)
Definition requests (pfx : string) (n : string) (reports : list Report)
  : list FinalStatus :=
  flat_map (fun r => match identity pfx r, classification r with
                     | Some name, Some st => if (name =? n)%string then [st] else []
                     | _, _ => []
                     end) reports.

(** First final request wins; failing one, any request gives [skipped]. *)
Definition verdict (vs : list FinalStatus) : option FinalStatus :=
  match find is_terminal vs with
  | Some st => Some st
  | None => match vs with
            | [] => None
            | _ :: _ => Some skipped
            end
  end.

(** The record holds no status yet. *)
Definition no_status (item : string * TestRecord) : bool :=
  match status (snd item) with
  | None => true
  | Some _ => false
  end.

(** What building the gauges may change: as [builds], and neither the
    gateway address, the job name nor the pushes made. *)
Definition quiet (w w' : World) : Prop :=
  builds w w'
  /\ pushgateway_url (self w') = pushgateway_url (self w)
  /\ job_name (self w') = job_name (self w)
  /\ gateway w' = gateway w.

(** The series a gauge gets for the tests [tests] when none faults: one per
    test, keyed by the values of its labels, each incremented once. *)
Definition series_of (extra : dict string) (tests : list string)
  : list (list string * N) :=
  map (fun t => (map snd (make_labels extra t), 1%N)) tests.

(** The gauge of one entry of [metrics] when nothing faults. *)
Definition gauge_of (pfx : string) (extra : dict string)
           (metric : string * list string * string) : Gauge :=
  let '(metric_name, test_list, description) := metric in
  mkGauge (make_metric_name pfx metric_name) description
          (PyDict.keys (make_labels extra EmptyString))
          (series_of extra test_list).

(** The four gauges of a report when nothing faults. *)
Definition built_gauges (pfx : string) (extra : dict string) (g : Groups)
  : list Gauge :=
  map (gauge_of pfx extra) (metrics_of g).


(** * Properties *)

(** ** The character class and the substitution *)

Lemma pattern_matches_alphabet (c : ascii) :
  PyStr.pattern_matches c = negb (PyStr.in_spec_alphabet c).
Proof.
  destruct c as [b0 b1 b2 b3 b4 b5 b6 b7].
  destruct b0, b1, b2, b3, b4, b5, b6, b7; vm_compute; reflexivity.
Qed.

Lemma re_sub_class_get (s : string) (i : nat) :
  String.get i (PyStr.re_sub_class PyStr.pattern_matches "_" s)
  = option_map spec_sanitize_char (String.get i s).
Proof.
  revert i; induction s as [|c s IH]; intros i; simpl.
  - reflexivity.
  - unfold spec_sanitize_char at 1.
    rewrite pattern_matches_alphabet.
    destruct (PyStr.in_spec_alphabet c) eqn:Hc; simpl;
      destruct i; simpl; auto; unfold spec_sanitize_char; rewrite Hc; auto.
Qed.

Lemma re_sub_class_length (s : string) :
  String.length (PyStr.re_sub_class PyStr.pattern_matches "_" s) = String.length s.
Proof.
  induction s as [|c s IH]; simpl; auto.
  destruct (PyStr.pattern_matches c); simpl; congruence.
Qed.

(** [C4] Metric name construction replaces every character outside
    [[A-Za-z0-9_]] of prefix + name by ['_'] and keeps the others in
    place; prefix ["my.metric-"] and name ["total"] give
    ["my_metric_total"]; the function is defined and single-valued on
    every input. *)
Theorem C4_make_metric_name_sanitizes :
  make_metric_name "my.metric-" "total" = "my_metric_total"
  /\ (forall pfx name i,
         String.get i (make_metric_name pfx name)
         = option_map spec_sanitize_char (String.get i (pfx ++ name)%string))
  /\ (forall pfx name,
         String.length (make_metric_name pfx name)
         = String.length (pfx ++ name)%string)
  /\ (forall pfx name, exists! out, make_metric_name pfx name = out).
Proof.
  split; [reflexivity|].
  split; [intros; apply re_sub_class_get|].
  split; [intros; apply re_sub_class_length|].
  intros pfx name. exists (make_metric_name pfx name).
  split; [reflexivity | auto].
Qed.

Lemma C4_make_metric_name_sanitizes_witness :
  make_metric_name "my.metric-" "total" = "my_metric_total"
  /\ String.get 2 (make_metric_name "my.metric-" "total") = Some "_"%char
  /\ String.length (make_metric_name "my.metric-" "total") = 15.
Proof.
  destruct C4_make_metric_name_sanitizes as (Hex & Hget & Hlen & _).
  split; [exact Hex|]. split.
  - rewrite (Hget "my.metric-" "total" 2). reflexivity.
  - rewrite (Hlen "my.metric-" "total"). reflexivity.
Defined.

(** ** Dictionaries *)

Section DictFacts.
Context {V : Type}.
Implicit Types (d : dict V) (k : string) (v : V).

Lemma get_set_eq k v d : PyDict.get k (PyDict.set k v d) = Some v.
Proof.
  induction d as [|[k' v'] d IH]; simpl.
  - now rewrite String.eqb_refl.
  - destruct (String.eqb k k') eqn:E; simpl; rewrite E; auto.
Qed.

Lemma get_set_ne k k' v d :
  k <> k' -> PyDict.get k' (PyDict.set k v d) = PyDict.get k' d.
Proof.
  intros Hne. induction d as [|[k0 v0] d IH]; simpl.
  - destruct (String.eqb k' k) eqn:E; auto.
    apply String.eqb_eq in E; congruence.
  - destruct (String.eqb k k0) eqn:E; simpl.
    + apply String.eqb_eq in E; subst k0.
      destruct (String.eqb k' k) eqn:E'; auto.
      apply String.eqb_eq in E'; congruence.
    + now rewrite IH.
Qed.

Lemma get_None_keys k d : PyDict.get k d = None <-> ~ In k (PyDict.keys d).
Proof.
  induction d as [|[k' v'] d IH]; simpl.
  - tauto.
  - destruct (String.eqb k k') eqn:E.
    + apply String.eqb_eq in E; subst. split; [discriminate | tauto].
    + apply String.eqb_neq in E. rewrite IH. split; [intros H [?|?] | ]; try tauto.
      congruence.
Qed.

Lemma contains_keys k d : PyDict.contains k d = true <-> In k (PyDict.keys d).
Proof.
  unfold PyDict.contains. destruct (PyDict.get k d) eqn:E.
  - split; auto. intros _.
    destruct (in_dec string_dec k (PyDict.keys d)) as [H|H]; auto.
    apply get_None_keys in H; congruence.
  - apply get_None_keys in E. split; [discriminate | tauto].
Qed.

Lemma keys_set k v d :
  PyDict.keys (PyDict.set k v d)
  = if PyDict.contains k d then PyDict.keys d else PyDict.keys d ++ [k].
Proof.
  unfold PyDict.contains.
  induction d as [|[k' v'] d IH]; simpl; auto.
  destruct (String.eqb k k') eqn:E; simpl; auto.
  rewrite IH. destruct (PyDict.get k d); auto.
Qed.

End DictFacts.

(** ** One delivered report *)

Lemma contains_get {V} k (d : dict V) :
  PyDict.contains k d = true -> exists v, PyDict.get k d = Some v.
Proof.
  unfold PyDict.contains. destruct (PyDict.get k d); [eauto | discriminate].
Qed.

Lemma contains_false_get {V} k (d : dict V) :
  PyDict.contains k d = false -> PyDict.get k d = None.
Proof.
  unfold PyDict.contains. destruct (PyDict.get k d); [discriminate | auto].
Qed.

Ltac unfold_py :=
  cbv [pytest_runtest_logreport logreport_body try_except set_status
       test_results_getitem test_results_setitem _make_metric_name
       logging_error getattr subscript bind ret raise gets modify
       negb fst snd step with_test_results with_log
       self test_results prefix log gateway pushgateway_url job_name
       extra_labels registry] in *.

Ltac case_on t :=
  let E := fresh "E" in
  destruct t eqn:E;
  cbv beta iota delta [negb fst snd orb option_map] in *;
  try reflexivity.

Ltac case_eqbs :=
  repeat match goal with
         | |- context [if (?a =? ?b)%string then _ else _] =>
             case_on (String.eqb a b)
         end.

(** The body of the reducer in closed form: the records change as [reduce]
    says, and the body raises exactly when [fault] says. *)
Lemma logreport_body_closed_form (r : Report) (w : World) :
  logreport_body r w =
    (match fault (prefix (self w)) r (test_results (self w)) with
     | Some e => Raise e
     | None => Ok tt
     end,
     reduced r w).
Proof.
  destruct w as [[pfx url job extra reg tr] lg gw].
  unfold reduced, reduce, fault, identity, ensure_record, classification,
    missing_attribute.
  unfold_py.
  case_on (location r).
  case_on (nth_error l 2).
  set (name := make_metric_name pfx s).
  case_on (PyDict.contains name tr).
  - destruct (contains_get _ _ E1) as [rec Hrec]. rewrite Hrec.
    case_on (in_failed_passed (status rec)).
    case_on (when r).
    case_on (String.eqb s0 "call"); [| case_on (String.eqb s0 "setup")];
      case_on (outcome r); case_eqbs; rewrite ?Hrec; reflexivity.
  - rewrite (contains_false_get _ _ E1), !get_set_eq.
    cbv beta iota delta [status in_failed_passed].
    case_on (when r).
    case_on (String.eqb s0 "call"); [| case_on (String.eqb s0 "setup")];
      case_on (outcome r); case_eqbs; rewrite ?get_set_eq; reflexivity.
Qed.

Lemma logreport_closed_form (r : Report) (w : World) :
  pytest_runtest_logreport r w =
    (Ok tt,
     match fault (prefix (self w)) r (test_results (self w)) with
     | Some e =>
         with_log (log (reduced r w) ++ [(ERROR, ErrorProcessingTestReport e)])
                  (reduced r w)
     | None => reduced r w
     end).
Proof.
  unfold pytest_runtest_logreport, try_except.
  rewrite logreport_body_closed_form.
  destruct (fault _ _ _); reflexivity.
Qed.

Lemma step_closed_form (r : Report) (w : World) :
  step r w =
    match fault (prefix (self w)) r (test_results (self w)) with
    | Some e =>
        with_log (log (reduced r w) ++ [(ERROR, ErrorProcessingTestReport e)])
                 (reduced r w)
    | None => reduced r w
    end.
Proof. unfold step. now rewrite logreport_closed_form. Qed.

Lemma step_test_results (r : Report) (w : World) :
  test_results (self (step r w))
  = reduce (prefix (self w)) r (test_results (self w)).
Proof. rewrite step_closed_form. destruct (fault _ _ _); reflexivity. Qed.

Lemma step_prefix (r : Report) (w : World) :
  prefix (self (step r w)) = prefix (self w).
Proof. rewrite step_closed_form. destruct (fault _ _ _); reflexivity. Qed.

Lemma deliver_prefix (reports : list Report) (w : World) :
  prefix (self (deliver reports w)) = prefix (self w).
Proof.
  revert w; induction reports as [|r rs IH]; intros w; simpl; auto.
  unfold deliver in IH. rewrite IH. apply step_prefix.
Qed.

Lemma deliver_app (before after : list Report) (w : World) :
  deliver (before ++ after) w = deliver after (deliver before w).
Proof. unfold deliver. apply fold_left_app. Qed.

Lemma deliver_cons (r : Report) (rs : list Report) (w : World) :
  deliver (r :: rs) w = deliver rs (step r w).
Proof. reflexivity. Qed.

Lemma status_in_set (tr : dict TestRecord) name rec n :
  status_in (PyDict.set name rec tr) n
  = if (name =? n)%string then status rec else status_in tr n.
Proof.
  unfold status_in.
  destruct (String.eqb name n) eqn:E.
  - apply String.eqb_eq in E; subst. now rewrite get_set_eq.
  - apply String.eqb_neq in E. now rewrite get_set_ne.
Qed.

Lemma status_in_ensure_record (tr : dict TestRecord) name n :
  status_in (ensure_record name tr) n = status_in tr n.
Proof.
  unfold ensure_record. destruct (PyDict.contains name tr) eqn:E; auto.
  rewrite status_in_set. destruct (String.eqb name n) eqn:En; auto.
  apply String.eqb_eq in En; subst. unfold status_in.
  now rewrite (contains_false_get _ _ E).
Qed.

Lemma get_ensure_record (tr : dict TestRecord) name :
  exists rec, PyDict.get name (ensure_record name tr) = Some rec.
Proof.
  unfold ensure_record. destruct (PyDict.contains name tr) eqn:E.
  - now apply contains_get.
  - rewrite get_set_eq. eauto.
Qed.

(** The statuses after a report. *)
Lemma reduce_status_in pfx (r : Report) (tr : dict TestRecord) (n : string) :
  status_in (reduce pfx r tr) n =
    match identity pfx r with
    | Some name =>
        if (name =? n)%string && negb (in_failed_passed (status_in tr n))
        then match classification r with
             | Some st => Some st
             | None => status_in tr n
             end
        else status_in tr n
    | None => status_in tr n
    end.
Proof.
  unfold reduce. destruct (identity pfx r) as [name|]; auto.
  cbv zeta.
  destruct (get_ensure_record tr name) as [rec Hrec]. rewrite Hrec.
  assert (Hst : status_in tr name = status rec).
  { rewrite <- (status_in_ensure_record tr name name). unfold status_in.
    now rewrite Hrec. }
  destruct (String.eqb name n) eqn:En; simpl.
  - apply String.eqb_eq in En; subst n. rewrite Hst.
    destruct (in_failed_passed (status rec)); simpl.
    + now rewrite status_in_ensure_record.
    + destruct (classification r).
      * now rewrite status_in_set, String.eqb_refl.
      * now rewrite status_in_ensure_record.
  - destruct (in_failed_passed (status rec)).
    + apply status_in_ensure_record.
    + destruct (classification r).
      * rewrite status_in_set, En. apply status_in_ensure_record.
      * apply status_in_ensure_record.
Qed.

Lemma step_status_of (r : Report) (w : World) (n : string) :
  status_of (step r w) n =
    match identity (prefix (self w)) r with
    | Some name =>
        if (name =? n)%string && negb (in_failed_passed (status_of w n))
        then match classification r with
             | Some st => Some st
             | None => status_of w n
             end
        else status_of w n
    | None => status_of w n
    end.
Proof.
  unfold status_of. rewrite step_test_results. apply reduce_status_in.
Qed.

Lemma step_keeps_terminal (r : Report) (w : World) (n : string) :
  in_failed_passed (status_of w n) = true ->
  status_of (step r w) n = status_of w n.
Proof.
  intros H. rewrite step_status_of, H.
  destruct (identity _ r); auto. now rewrite andb_false_r.
Qed.

Lemma deliver_keeps_terminal (reports : list Report) (w : World) (n : string) :
  in_failed_passed (status_of w n) = true ->
  status_of (deliver reports w) n = status_of w n.
Proof.
  revert w; induction reports as [|r rs IH]; intros w H; auto.
  rewrite deliver_cons, IH; rewrite step_keeps_terminal; auto.
Qed.


(** ** The reducer *)

Lemma identity_located pfx loc wh oc funcname :
  nth_error loc 2 = Some funcname ->
  identity pfx (mkTestReport (Some loc) wh oc) = Some (make_metric_name pfx funcname).
Proof. intros H. unfold identity; cbn [location]. now rewrite H. Qed.

(** [C1] Once the record of a test name holds [passed] or [failed] after
    some reports, no report delivered afterwards changes that status,
    whatever its name, phase or outcome. *)
Theorem C1_terminal_status_never_changes
  (w : World) (before after : list Report) (name : string) (st : FinalStatus) :
  status_of (deliver before w) name = Some st ->
  st = passed \/ st = failed ->
  status_of (deliver (before ++ after) w) name = Some st.
Proof.
  intros Hst Hterm. rewrite deliver_app, deliver_keeps_terminal; auto.
  rewrite Hst. destruct Hterm; subst; reflexivity.
Qed.

Lemma C1_terminal_status_never_changes_witness :
  let w := init "p_" "http://gateway:9091" None [] in
  let call_passed := mkTestReport (Some ["t.py"; "1"; "test_a"]) (Some "call") (Some "passed") in
  let setup_failed := mkTestReport (Some ["t.py"; "1"; "test_a"]) (Some "setup") (Some "failed") in
  let teardown_failed := mkTestReport (Some ["t.py"; "1"; "test_a"]) (Some "teardown") (Some "failed") in
  status_of (deliver ([call_passed] ++ [setup_failed; teardown_failed]) w) "p_test_a"
  = Some passed.
Proof.
  intros w call_passed setup_failed teardown_failed.
  apply (C1_terminal_status_never_changes w [call_passed]
           [setup_failed; teardown_failed] "p_test_a" passed).
  - reflexivity.
  - left; reflexivity.
Defined.

(** [C2], as stated, fails: a call-phase report with outcome ['error'] for
    a test with no final status does not record [failed]. *)
Lemma C2_call_error_does_not_record_failed :
  let w := init "p_" "http://gateway:9091" None [] in
  let r := mkTestReport (Some ["t.py"; "1"; "test_a"]) (Some "call") (Some "error") in
  identity (prefix (self w)) r = Some "p_test_a"
  /\ in_failed_passed (status_of w "p_test_a") = false
  /\ status_of (step r w) "p_test_a" = None
  /\ status_of (step r w) "p_test_a" <> Some failed.
Proof. repeat split; try reflexivity. discriminate. Qed.

(** [C2], amended: a call-phase report with outcome ['error'] changes the
    status of no test (the reducer compares the outcome with ['passed'] and
    ['failed'] only), while a call-phase report with outcome ['failed']
    sets the status of its test to [failed] unless it already holds
    [passed] or [failed]. *)
Theorem C2_call_error_is_ignored
  (w : World) (loc : list string) (funcname : string) :
  nth_error loc 2 = Some funcname ->
  let name := make_metric_name (prefix (self w)) funcname in
  in_failed_passed (status_of w name) = false ->
  (forall n,
      status_of (step (mkTestReport (Some loc) (Some "call") (Some "error")) w) n
      = status_of w n)
  /\ status_of (step (mkTestReport (Some loc) (Some "call") (Some "failed")) w) name
     = Some failed.
Proof.
  intros Hloc name Hopen. split.
  - intros n. rewrite step_status_of, (identity_located _ _ _ _ _ Hloc); simpl.
    destruct (_ && _); reflexivity.
  - rewrite step_status_of, (identity_located _ _ _ _ _ Hloc); simpl.
    fold name. now rewrite String.eqb_refl, Hopen.
Qed.

Lemma C2_call_error_is_ignored_witness :
  let w := init "p_" "http://gateway:9091" None [] in
  let loc := ["t.py"; "1"; "test_a"] in
  (forall n,
      status_of (step (mkTestReport (Some loc) (Some "call") (Some "error")) w) n
      = status_of w n)
  /\ status_of (step (mkTestReport (Some loc) (Some "call") (Some "failed")) w)
       (make_metric_name (prefix (self w)) "test_a")
     = Some failed.
Proof.
  intros w loc.
  apply (C2_call_error_is_ignored w loc "test_a"); reflexivity.
Defined.

(** [C3] A record holding [skipped] is overridden by a later call-phase
    report with outcome ['passed']; a test without final status that
    receives setup:skipped and then call:passed ends [passed]. *)
Theorem C3_call_passed_overrides_skipped
  (w : World) (loc : list string) (funcname : string) :
  nth_error loc 2 = Some funcname ->
  let name := make_metric_name (prefix (self w)) funcname in
  let setup_skipped := mkTestReport (Some loc) (Some "setup") (Some "skipped") in
  let call_passed := mkTestReport (Some loc) (Some "call") (Some "passed") in
  (status_of w name = Some skipped ->
   status_of (step call_passed w) name = Some passed)
  /\ (in_failed_passed (status_of w name) = false ->
      status_of (step setup_skipped w) name = Some skipped
      /\ status_of (deliver [setup_skipped; call_passed] w) name = Some passed).
Proof.
  intros Hloc name setup_skipped call_passed.
  assert (Hcall : forall w', prefix (self w') = prefix (self w) ->
            in_failed_passed (status_of w' name) = false ->
            status_of (step call_passed w') name = Some passed).
  { intros w' Hp Hopen. unfold call_passed.
    rewrite step_status_of, Hp, (identity_located _ _ _ _ _ Hloc); simpl.
    fold name. now rewrite String.eqb_refl, Hopen. }
  assert (Hsetup : in_failed_passed (status_of w name) = false ->
            status_of (step setup_skipped w) name = Some skipped).
  { intros Hopen. unfold setup_skipped.
    rewrite step_status_of, (identity_located _ _ _ _ _ Hloc); simpl.
    fold name. now rewrite String.eqb_refl, Hopen. }
  split.
  - intros Hsk. apply Hcall; auto. now rewrite Hsk.
  - intros Hopen. split; auto.
    change (deliver [setup_skipped; call_passed] w)
      with (step call_passed (step setup_skipped w)).
    apply Hcall; [apply step_prefix|]. now rewrite Hsetup.
Qed.

Lemma C3_call_passed_overrides_skipped_witness :
  let w := init "p_" "http://gateway:9091" None [] in
  let loc := ["t.py"; "1"; "test_a"] in
  let setup_skipped := mkTestReport (Some loc) (Some "setup") (Some "skipped") in
  let call_passed := mkTestReport (Some loc) (Some "call") (Some "passed") in
  status_of (step setup_skipped w) "p_test_a" = Some skipped
  /\ status_of (deliver [setup_skipped; call_passed] w) "p_test_a" = Some passed.
Proof.
  intros w loc setup_skipped call_passed.
  apply (C3_call_passed_overrides_skipped w loc "test_a"); reflexivity.
Defined.

(** [C6] A report without [location] is a silent no-op: the call returns
    normally and the world (records, log, registry) is as before. *)
Theorem C6_report_without_location_is_noop (r : Report) (w : World) :
  location r = None ->
  pytest_runtest_logreport r w = (Ok tt, w)
  /\ test_results (self (step r w)) = test_results (self w)
  /\ log (step r w) = log w.
Proof.
  intros Hloc.
  assert (H : pytest_runtest_logreport r w = (Ok tt, w)).
  { unfold pytest_runtest_logreport, try_except, logreport_body.
    now rewrite Hloc. }
  unfold step. rewrite H. auto.
Qed.

Lemma C6_report_without_location_is_noop_witness :
  let w := init "p_" "http://gateway:9091" None [] in
  let r := mkTestReport None (Some "call") (Some "failed") in
  pytest_runtest_logreport r w = (Ok tt, w)
  /\ test_results (self (step r w)) = test_results (self w)
  /\ log (step r w) = log w.
Proof.
  intros w r. apply (C6_report_without_location_is_noop r w). reflexivity.
Defined.

Lemma missing_attribute_classification (r : Report) (a : string) :
  missing_attribute r = Some a -> classification r = None.
Proof.
  unfold missing_attribute, classification.
  destruct (when r) as [wh|]; auto.
  destruct (String.eqb wh "call"), (String.eqb wh "setup"); simpl;
    destruct (outcome r); auto; discriminate.
Qed.

(** After a fault of the body the records are the ones before, plus the
    empty record of the report's name when the name was resolved. *)
Lemma reduce_on_fault pfx (r : Report) (tr : dict TestRecord) (e : exn) :
  fault pfx r tr = Some e ->
  reduce pfx r tr
  = match identity pfx r with
    | Some name => ensure_record name tr
    | None => tr
    end.
Proof.
  unfold fault, reduce, identity.
  destruct (location r) as [loc|]; [|discriminate].
  destruct (nth_error loc 2) as [funcname|]; simpl; auto.
  set (name := make_metric_name pfx funcname).
  unfold ensure_record at 1 3.
  destruct (PyDict.contains name tr) eqn:Hc.
  - destruct (contains_get _ _ Hc) as [rec Hrec]. rewrite Hrec.
    destruct (in_failed_passed (status rec)); [discriminate|].
    destruct (missing_attribute r) as [a|] eqn:Ha; [|discriminate].
    now rewrite (missing_attribute_classification _ _ Ha).
  - rewrite (contains_false_get _ _ Hc), get_set_eq; simpl.
    destruct (missing_attribute r) as [a|] eqn:Ha; [|discriminate].
    now rewrite (missing_attribute_classification _ _ Ha).
Qed.

(** [C5], as stated, fails on two counts: the fault is logged with
    [logging.error], not as a warning, and a fault met while classifying
    comes after the record of the test was created, so the report leaves a
    record behind. *)
Lemma C5_fault_logged_as_error_and_record_kept :
  let w := init "p_" "http://gateway:9091" None [] in
  let r := mkTestReport (Some ["t.py"; "1"; "test_a"]) None (Some "passed") in
  fst (logreport_body r w) = Raise (AttributeError "when")
  /\ log (step r w) = [(ERROR, ErrorProcessingTestReport (AttributeError "when"))]
  /\ (forall m, ~ In (WARNING, m) (log (step r w)))
  /\ test_results (self w) = []
  /\ test_results (self (step r w)) = [("p_test_a", mkTestRecord None None)]
  /\ test_results (self (step r w)) <> test_results (self w).
Proof.
  repeat split; try reflexivity.
  - intros m [H|[]]. discriminate.
  - discriminate.
Qed.

(** [C5], amended: the reducer never raises. A fault of its body is caught
    and logged once with [logging.error], the call returns normally and
    no status changes; the records are as before, except that a fault met
    after the test name was resolved leaves the record of that name in
    place (created with status [None] if it was new). Without a fault
    nothing is logged. *)
Theorem C5_reducer_never_raises (r : Report) (w : World) :
  fst (pytest_runtest_logreport r w) = Ok tt
  /\ (forall e w1,
         logreport_body r w = (Raise e, w1) ->
         log (step r w) = log w ++ [(ERROR, ErrorProcessingTestReport e)]
         /\ (forall n, status_of (step r w) n = status_of w n)
         /\ test_results (self (step r w))
            = match identity (prefix (self w)) r with
              | Some name => ensure_record name (test_results (self w))
              | None => test_results (self w)
              end)
  /\ (forall w1, logreport_body r w = (Ok tt, w1) -> log (step r w) = log w).
Proof.
  split; [now rewrite logreport_closed_form|].
  split.
  - intros e w1 Hbody. rewrite logreport_body_closed_form in Hbody.
    destruct (fault _ r _) as [e'|] eqn:Hf; [|discriminate].
    assert (e' = e) by congruence. subst e'.
    pose proof (reduce_on_fault _ _ _ _ Hf) as Hred.
    split; [|split].
    + rewrite step_closed_form, Hf. reflexivity.
    + intros n. unfold status_of. rewrite step_test_results, Hred.
      destruct (identity _ r); auto. apply status_in_ensure_record.
    + now rewrite step_test_results.
  - intros w1 Hbody. rewrite logreport_body_closed_form in Hbody.
    destruct (fault _ r _) eqn:Hf; [discriminate|].
    rewrite step_closed_form, Hf. reflexivity.
Qed.

Lemma C5_reducer_never_raises_witness :
  let w := init "p_" "http://gateway:9091" None [] in
  let r := mkTestReport (Some ["t.py"; "1"]) (Some "call") (Some "passed") in
  log (step r w) = log w ++ [(ERROR, ErrorProcessingTestReport IndexError)]
  /\ (forall n, status_of (step r w) n = status_of w n)
  /\ test_results (self (step r w))
     = match identity (prefix (self w)) r with
       | Some name => ensure_record name (test_results (self w))
       | None => test_results (self w)
       end.
Proof.
  intros w r.
  destruct (C5_reducer_never_raises r w) as [_ [H _]].
  apply (H IndexError w). reflexivity.
Defined.

(** ** Records over a run *)

Lemma contains_ensure_record (tr : dict TestRecord) name :
  PyDict.contains name (ensure_record name tr) = true.
Proof.
  unfold PyDict.contains.
  destruct (get_ensure_record tr name) as [rec ->]. reflexivity.
Qed.

Lemma keys_ensure_record (tr : dict TestRecord) name :
  PyDict.keys (ensure_record name tr)
  = if PyDict.contains name tr then PyDict.keys tr else PyDict.keys tr ++ [name].
Proof.
  unfold ensure_record. destruct (PyDict.contains name tr) eqn:E; auto.
  now rewrite keys_set, E.
Qed.

Lemma reduce_keys pfx (r : Report) (tr : dict TestRecord) :
  PyDict.keys (reduce pfx r tr)
  = match identity pfx r with
    | Some name =>
        if PyDict.contains name tr then PyDict.keys tr
        else PyDict.keys tr ++ [name]
    | None => PyDict.keys tr
    end.
Proof.
  unfold reduce. destruct (identity pfx r) as [name|]; auto. cbv zeta.
  destruct (get_ensure_record tr name) as [rec ->].
  destruct (in_failed_passed (status rec)); [apply keys_ensure_record|].
  destruct (classification r); [|apply keys_ensure_record].
  rewrite keys_set, contains_ensure_record. apply keys_ensure_record.
Qed.

Lemma deliver_test_results (reports : list Report) (w : World) :
  test_results (self (deliver reports w))
  = fold_left (fun tr r => reduce (prefix (self w)) r tr) reports
              (test_results (self w)).
Proof.
  revert w; induction reports as [|r rs IH]; intros w; auto.
  rewrite deliver_cons, IH, step_prefix, step_test_results. reflexivity.
Qed.

Lemma fold_reduce_keys pfx (reports : list Report) :
  forall tr : dict TestRecord,
    NoDup (PyDict.keys tr) ->
    let tr' := fold_left (fun tr r => reduce pfx r tr) reports tr in
    NoDup (PyDict.keys tr')
    /\ forall n, In n (PyDict.keys tr')
                 <-> In n (PyDict.keys tr) \/ In n (identities pfx reports).
Proof.
  induction reports as [|r rs IH]; intros tr Hnd; simpl.
  - split; auto. intros n; tauto.
  - assert (Hnd1 : NoDup (PyDict.keys (reduce pfx r tr))).
    { rewrite reduce_keys. destruct (identity pfx r) as [name|]; auto.
      destruct (PyDict.contains name tr) eqn:Hc; auto.
      apply NoDup_app; repeat split; auto.
      - repeat constructor. intros [].
      - intros a Ha [<-|[]].
        apply contains_keys in Ha. congruence. }
    destruct (IH _ Hnd1) as [Hnd' Hin]. split; auto.
    intros n. rewrite Hin, reduce_keys, in_app_iff.
    destruct (identity pfx r) as [name|]; simpl; [|tauto].
    destruct (PyDict.contains name tr) eqn:Hc.
    + apply contains_keys in Hc. split; [tauto|].
      intros [H|[[<-|[]]|H]]; auto.
    + rewrite in_app_iff; simpl. tauto.
Qed.

Lemma in_identities pfx (reports : list Report) (n : string) :
  In n (identities pfx reports)
  <-> exists r, In r reports /\ identity pfx r = Some n.
Proof.
  unfold identities. rewrite in_flat_map. split; intros [r [Hr H]]; exists r.
  - split; auto. destruct (identity pfx r); [|destruct H].
    destruct H as [->|[]]. reflexivity.
  - split; auto. rewrite H. now left.
Qed.

(** ** The four groups *)

Lemma categorize_fold (l : list (string * TestRecord)) :
  forall g,
    fold_left categorize_step l g
    = mkGroups (total_tests g)
        (passed_tests g ++ map fst (filter (has_status passed) l))
        (failed_tests g ++ map fst (filter (has_status failed) l))
        (skipped_tests g ++ map fst (filter (has_status skipped) l)).
Proof.
  induction l as [|[name [st ph]] l IH]; intros g.
  - cbn. rewrite !app_nil_r. now destruct g.
  - destruct st as [[| |]|]; cbn [fold_left]; rewrite IH; cbn;
      rewrite <- ?app_assoc; reflexivity.
Qed.

Lemma get_In {V} (d : dict V) k v : PyDict.get k d = Some v -> In (k, v) d.
Proof.
  induction d as [|[k' v'] d IH]; simpl; [discriminate|].
  destruct (String.eqb k k') eqn:E.
  - apply String.eqb_eq in E; subst. intros [= ->]. now left.
  - auto.
Qed.

Lemma In_get {V} (d : dict V) k v :
  NoDup (PyDict.keys d) -> In (k, v) d -> PyDict.get k d = Some v.
Proof.
  induction d as [|[k' v'] d IH]; simpl; [tauto|].
  intros Hnd [H|H]; inversion Hnd; subst.
  - injection H as -> ->. now rewrite String.eqb_refl.
  - destruct (String.eqb k k') eqn:E; auto.
    apply String.eqb_eq in E; subst.
    exfalso. apply H2. change k' with (fst (k', v)). now apply in_map.
Qed.

Lemma in_group (tr : dict TestRecord) (st : FinalStatus) (n : string) :
  NoDup (PyDict.keys tr) ->
  In n (map fst (filter (has_status st) tr)) <-> status_in tr n = Some st.
Proof.
  intros Hnd. rewrite in_map_iff. unfold status_in. split.
  - intros [[k rec] [<- H]]. apply filter_In in H as [Hin Hst]. simpl.
    rewrite (In_get _ _ _ Hnd Hin).
    unfold has_status in Hst; simpl in Hst.
    destruct (status rec) as [[| |]|], st; congruence.
  - destruct (PyDict.get n tr) as [rec|] eqn:Hget; [|discriminate].
    intros Hst. exists (n, rec). split; auto.
    apply filter_In. split; [now apply get_In|].
    unfold has_status; simpl. rewrite Hst. now destruct st.
Qed.

(** [C7] At finalization [total] lists, without repetition, exactly the
    names for which some report was recorded during the run, whatever
    their status (names whose status is still [None] included), so its
    length is the number of distinct names seen; [passed], [failed] and
    [skipped] list exactly the names whose final status is that value. *)
Theorem C7_groups_at_finalization
  (pfx url : string) (job : option string) (extra : dict string)
  (reports : list Report) :
  let w := deliver reports (init pfx url job extra) in
  let g := categorize (test_results (self w)) in
  NoDup (total_tests g)
  /\ (forall n, In n (total_tests g)
                <-> exists r, In r reports /\ identity pfx r = Some n)
  /\ (forall n r, In r reports -> identity pfx r = Some n ->
                  status_of w n = None -> In n (total_tests g))
  /\ length (total_tests g) = length (nodup string_dec (identities pfx reports))
  /\ (forall n, In n (passed_tests g) <-> status_of w n = Some passed)
  /\ (forall n, In n (failed_tests g) <-> status_of w n = Some failed)
  /\ (forall n, In n (skipped_tests g) <-> status_of w n = Some skipped).
Proof.
  intros w g.
  assert (Htr : test_results (self w)
                = fold_left (fun tr r => reduce pfx r tr) reports []).
  { unfold w. now rewrite deliver_test_results. }
  destruct (fold_reduce_keys pfx reports [] (NoDup_nil _)) as [Hnd Hin].
  cbv zeta in Hnd, Hin. rewrite <- Htr in Hnd, Hin.
  assert (Hg : g = mkGroups (PyDict.keys (test_results (self w)))
                 (map fst (filter (has_status passed) (test_results (self w))))
                 (map fst (filter (has_status failed) (test_results (self w))))
                 (map fst (filter (has_status skipped) (test_results (self w))))).
  { unfold g, categorize, PyDict.items. now rewrite categorize_fold. }
  rewrite Hg; simpl.
  assert (Htotal : forall n, In n (PyDict.keys (test_results (self w)))
                   <-> exists r, In r reports /\ identity pfx r = Some n).
  { intros n. rewrite Hin, <- in_identities. simpl. tauto. }
  repeat split; auto; try (now apply in_group); try (now apply Htotal).
  - intros n r Hr Hid _. apply Htotal. eauto.
  - apply Permutation_length, NoDup_Permutation; auto.
    + apply NoDup_nodup.
    + intros n. rewrite nodup_In, Hin. simpl. tauto.
Qed.

Lemma C7_groups_at_finalization_witness :
  let report f wh oc := mkTestReport (Some ["t.py"; "1"; f]) (Some wh) (Some oc) in
  let reports := [report "t1" "call" "passed"; report "t2" "teardown" "passed";
                  mkTestReport None (Some "call") (Some "failed")] in
  let w := deliver reports (init "p_" "http://gateway:9091" None []) in
  let g := categorize (test_results (self w)) in
  In "p_t2" (total_tests g)
  /\ length (total_tests g) = 2
  /\ In "p_t1" (passed_tests g).
Proof.
  intros report reports w g.
  destruct (C7_groups_at_finalization "p_" "http://gateway:9091" None [] reports)
    as (_ & _ & Hnone & Hlen & Hpassed & _).
  split; [|split].
  - apply (Hnone "p_t2" (report "t2" "teardown" "passed")).
    + right; left; reflexivity.
    + reflexivity.
    + reflexivity.
  - exact (eq_trans Hlen eq_refl).
  - apply Hpassed. reflexivity.
Defined.

(** ** Labels *)

Example init_parses_labels :
  let w := PrometheusReport_init "p_" "http://gateway:9091" (Some "ci")
             ["env=ci"; "broken"; "testname=x"; "expr=a=b"] in
  extra_labels (self w) = [("env", "ci"); ("testname", "x"); ("expr", "a=b")]
  /\ log w = [(WARNING, SkippingInvalidLabelFormat "broken")].
Proof. split; reflexivity. Qed.

(** [C8] The labels of a series map ['testname'] to the test name for
    every extra-label dictionary: the key is written last, over the user
    labels, so a user label ['testname'] does not survive; the other user
    labels are kept. *)
Theorem C8_testname_label_is_reserved (extra : dict string) (testname : string) :
  PyDict.get "testname" (make_labels extra testname) = Some testname
  /\ In "testname" (PyDict.keys (make_labels extra testname))
  /\ (forall x,
         PyDict.get "testname"
           (make_labels (PyDict.set "testname" x extra) testname)
         = Some testname)
  /\ (forall k, k <> "testname" ->
                PyDict.get k (make_labels extra testname) = PyDict.get k extra)
  /\ (forall w,
         extra_labels (self w) = extra ->
         _make_labels testname w = (Ok (make_labels extra testname), w))
  /\ (forall pfx url job raw,
         PyDict.get "testname"
           (make_labels
              (extra_labels (self (PrometheusReport_init pfx url job raw)))
              testname)
         = Some testname).
Proof.
  unfold make_labels.
  repeat split; intros; try apply get_set_eq.
  - destruct (in_dec string_dec "testname"
                (PyDict.keys (PyDict.set "testname" testname extra))) as [H|H];
      auto.
    apply get_None_keys in H. rewrite get_set_eq in H. discriminate.
  - apply get_set_ne. congruence.
  - unfold _make_labels, bind, gets, ret, make_labels. now subst extra.
Qed.

Lemma C8_testname_label_is_reserved_witness :
  let w := PrometheusReport_init "p_" "http://gateway:9091" None
             ["env=ci"; "testname=x"] in
  PyDict.get "env" (make_labels (extra_labels (self w)) "p_test_a") = Some "ci"
  /\ _make_labels "p_test_a" w
     = (Ok [("env", "ci"); ("testname", "p_test_a")], w).
Proof.
  intros w.
  destruct (C8_testname_label_is_reserved (extra_labels (self w)) "p_test_a")
    as (_ & _ & _ & Hother & Hrun & _).
  split.
  - rewrite (Hother "env"); [reflexivity | discriminate].
  - apply (Hrun w). reflexivity.
Defined.

(** ** Names that sanitize to the same name *)

Lemma re_sub_class_app (a b : string) :
  PyStr.re_sub_class PyStr.pattern_matches "_" (a ++ b)%string
  = (PyStr.re_sub_class PyStr.pattern_matches "_" a
     ++ PyStr.re_sub_class PyStr.pattern_matches "_" b)%string.
Proof.
  induction a as [|c a IH]; simpl; auto.
  destruct (PyStr.pattern_matches c); simpl; now rewrite IH.
Qed.

Lemma fold_reduce_same_name pfx (n : string) (reports : list Report) :
  Forall (fun r => identity pfx r = Some n) reports ->
  forall tr : dict TestRecord,
    PyDict.keys tr = [n] ->
    PyDict.keys (fold_left (fun tr r => reduce pfx r tr) reports tr) = [n].
Proof.
  induction 1 as [|r rs Hr _ IH]; intros tr Hk; simpl; auto.
  apply IH. rewrite reduce_keys, Hr.
  assert (Hc : PyDict.contains n tr = true).
  { apply contains_keys. rewrite Hk. now left. }
  now rewrite Hc.
Qed.

Lemma total_tests_categorize (tr : dict TestRecord) :
  total_tests (categorize tr) = PyDict.keys tr.
Proof. unfold categorize. now rewrite categorize_fold. Qed.

(** [C10] The name a test is recorded under is the sanitized prefix + name,
    and sanitizing is not injective (["test[a-b]"] and ["test[a.b]"]
    collide under every prefix). Reports of two distinct raw names with
    the same sanitized name update one record: after both, there is one
    record and [total] has the single member. *)
Theorem C10_colliding_names_share_one_record
  (pfx url : string) (job : option string) (extra : dict string)
  (loc1 loc2 : list string) (f1 f2 : string)
  (when1 outcome1 when2 outcome2 : option string) :
  nth_error loc1 2 = Some f1 ->
  nth_error loc2 2 = Some f2 ->
  f1 <> f2 ->
  make_metric_name pfx f1 = make_metric_name pfx f2 ->
  let r1 := mkTestReport (Some loc1) when1 outcome1 in
  let r2 := mkTestReport (Some loc2) when2 outcome2 in
  let w := deliver [r1; r2] (init pfx url job extra) in
  identity pfx r1 = identity pfx r2
  /\ PyDict.keys (test_results (self w)) = [make_metric_name pfx f1]
  /\ total_tests (categorize (test_results (self w))) = [make_metric_name pfx f1]
  /\ length (total_tests (categorize (test_results (self w)))) = 1
  /\ ("test[a-b]" <> "test[a.b]"
      /\ make_metric_name pfx "test[a-b]" = make_metric_name pfx "test[a.b]").
Proof.
  intros H1 H2 Hne Heq r1 r2 w.
  assert (Hid1 : identity pfx r1 = Some (make_metric_name pfx f1))
    by now apply identity_located.
  assert (Hid2 : identity pfx r2 = Some (make_metric_name pfx f1))
    by (rewrite Heq; now apply identity_located).
  assert (Hkeys : PyDict.keys (test_results (self w)) = [make_metric_name pfx f1]).
  { unfold w. rewrite deliver_test_results. cbn [fold_left init self prefix test_results].
    apply (fold_reduce_same_name pfx _ [r2]); [repeat constructor; auto|].
    rewrite reduce_keys, Hid1. reflexivity. }
  repeat split; auto.
  - congruence.
  - now rewrite total_tests_categorize.
  - now rewrite total_tests_categorize, Hkeys.
  - discriminate.
  - unfold make_metric_name. rewrite !re_sub_class_app. reflexivity.
Qed.

Lemma C10_colliding_names_share_one_record_witness :
  let r1 := mkTestReport (Some ["t.py"; "1"; "test[a-b]"]) (Some "call") (Some "passed") in
  let r2 := mkTestReport (Some ["t.py"; "9"; "test[a.b]"]) (Some "call") (Some "failed") in
  let w := deliver [r1; r2] (init "p_" "http://gateway:9091" None []) in
  total_tests (categorize (test_results (self w))) = ["p_test_a_b_"]
  /\ status_of w "p_test_a_b_" = Some passed.
Proof.
  intros r1 r2 w. split.
  - apply (C10_colliding_names_share_one_record "p_" "http://gateway:9091" None []
             ["t.py"; "1"; "test[a-b]"] ["t.py"; "9"; "test[a.b]"]
             "test[a-b]" "test[a.b]"
             (Some "call") (Some "passed") (Some "call") (Some "failed"));
      [reflexivity | reflexivity | discriminate | reflexivity].
  - reflexivity.
Defined.

(** ** Loops *)


(** ** Gauges and registries *)

Lemma labelvalues_eqb_eq (a b : list string) :
  labelvalues_eqb a b = true <-> a = b.
Proof.
  revert b; induction a as [|x a IH]; intros [|y b]; simpl;
    try (split; [discriminate | congruence]); [tauto|].
  rewrite andb_true_iff, String.eqb_eq, IH. split.
  - intros [-> ->]; reflexivity.
  - intros [= -> ->]; auto.
Qed.


Lemma inc_sample_grows (key : list string) (samples : list (list string * N)) k v :
  In (k, v) samples ->
  exists v', (v <= v')%N /\ In (k, v') (inc_sample key samples).
Proof.
  induction samples as [|[k0 v0] rest IH]; simpl; [tauto|].
  intros [[= -> ->]|Hin].
  - destruct (labelvalues_eqb key k).
    + exists (v + 1)%N. split; [lia | now left].
    + exists v. split; [lia | now left].
  - destruct (labelvalues_eqb key k0).
    + exists v. split; [lia | now right].
    + destruct (IH Hin) as (v' & Hv & Hin'). exists v'. split; auto. now right.
Qed.

Lemma nth_error_update_nth_eq {A} (f : A -> A) (l : list A) (i : nat) :
  nth_error (update_nth i f l) i = option_map f (nth_error l i).
Proof.
  revert i; induction l as [|x l IH]; intros [|i]; simpl; auto.
Qed.

Lemma nth_error_update_nth_ne {A} (f : A -> A) (l : list A) (i j : nat) :
  i <> j -> nth_error (update_nth i f l) j = nth_error l j.
Proof.
  revert i j; induction l as [|x l IH]; intros [|i] [|j] H; simpl; auto.
  congruence.
Qed.

Lemma gauge_le_refl g : gauge_le g g.
Proof. repeat split; auto. intros key v H. exists v. split; [lia | auto]. Qed.

Lemma gauge_le_trans g1 g2 g3 : gauge_le g1 g2 -> gauge_le g2 g3 -> gauge_le g1 g3.
Proof.
  intros (N1 & D1 & L1 & S1) (N2 & D2 & L2 & S2).
  repeat split; try congruence.
  intros key v H. destruct (S1 _ _ H) as (v1 & Hv1 & H1).
  destruct (S2 _ _ H1) as (v2 & Hv2 & H2). exists v2. split; [lia | auto].
Qed.

Lemma registry_le_refl reg : registry_le reg reg.
Proof. intros j g H. exists g. split; auto. apply gauge_le_refl. Qed.

Lemma registry_le_trans r1 r2 r3 :
  registry_le r1 r2 -> registry_le r2 r3 -> registry_le r1 r3.
Proof.
  intros H1 H2 j g H. destruct (H1 _ _ H) as (g1 & E1 & L1).
  destruct (H2 _ _ E1) as (g2 & E2 & L2). exists g2. split; auto.
  eapply gauge_le_trans; eauto.
Qed.


Lemma builds_trans w1 w2 w3 : builds w1 w2 -> builds w2 w3 -> builds w1 w3.
Proof.
  intros (A1 & B1 & C1 & D1 & E1) (A2 & B2 & C2 & D2 & E2).
  repeat split; try congruence.
  - eapply registry_le_trans; eauto.
  - eapply incl_tran; eauto.
Qed.



Lemma keys_make_labels (extra : dict string) (t t' : string) :
  PyDict.keys (make_labels extra t) = PyDict.keys (make_labels extra t').
Proof. unfold make_labels. now rewrite !keys_set. Qed.


(** ** Building the series of one gauge *)

Section ReportBuilderFacts.

Variable Gauge_raises :
  string -> string -> list string -> CollectorRegistry -> option exn.
Variable labels_inc_raises : Gauge -> dict string -> option exn.
Variable push_raises :
  string -> CollectorRegistry -> option string -> option exn.

Variable extra : dict string.
Variable pfx : string.



Lemma increment_series_built h t w g key :
  nth_error (registry (self w)) h = Some g ->
  labels_inc_raises g (make_labels (extra_labels (self w)) t) = None ->
  labelvalues (g_labelnames g) (make_labels (extra_labels (self w)) t) = Some key ->
  increment_series labels_inc_raises h t w
  = (Ok tt,
     with_registry
       (update_nth h
          (fun g => mkGauge (g_name g) (g_documentation g) (g_labelnames g)
                      (inc_sample key (g_samples g)))
          (registry (self w))) w).
Proof.
  intros Hg He Hk.
  unfold increment_series, try_except, _make_labels, gauge_labels_inc, bind,
    gets, ret, raise, logging_error, modify.
  now rewrite Hg, He, Hk.
Qed.

Lemma update_nth_registry_le h key reg :
  registry_le reg
    (update_nth h
       (fun g => mkGauge (g_name g) (g_documentation g) (g_labelnames g)
                   (inc_sample key (g_samples g))) reg).
Proof.
  intros j g Hj. destruct (Nat.eq_dec h j) as [->|Hne].
  - rewrite nth_error_update_nth_eq, Hj. simpl. eexists. split; [reflexivity|].
    repeat split; auto. simpl. intros k v. apply inc_sample_grows.
  - rewrite nth_error_update_nth_ne by auto. exists g. split; auto.
    apply gauge_le_refl.
Qed.




End ReportBuilderFacts.

(** ** The report at the end of the session *)

Lemma get_label_names_run (w : World) :
  _get_label_names w
  = (Ok (PyDict.keys (make_labels (extra_labels (self w)) EmptyString)), w).
Proof. reflexivity. Qed.

(** ** A run from end to end *)

(** The scenario of the specification: t1 passes its call after an ignored
    setup:passed, t2 fails its call, t3 is skipped at setup. *)
Example end_to_end_groups :
  let report f wh oc := mkTestReport (Some ["t.py"; "1"; f]) (Some wh) (Some oc) in
  let w := deliver [report "t1" "setup" "passed"; report "t1" "call" "passed";
                    report "t2" "call" "failed"; report "t3" "setup" "skipped"]
             (init "p_" "http://gateway:9091" None []) in
  categorize (test_results (self w))
  = mkGroups ["p_t1"; "p_t2"; "p_t3"] ["p_t1"] ["p_t2"] ["p_t3"].
Proof. reflexivity. Qed.

Example end_to_end_registry :
  let report f wh oc := mkTestReport (Some ["t.py"; "1"; f]) (Some wh) (Some oc) in
  let w := deliver [report "t1" "call" "passed"; report "t2" "call" "failed"]
             (init "my.metric-" "http://gateway:9091" (Some "ci") [("env", "ci")]) in
  let finish := pytest_sessionfinish (fun _ _ _ _ => None) (fun _ _ => None)
                  (fun _ _ _ => None) w in
  let names := ["env"; "testname"] in
  fst finish = Ok tt
  /\ registry (self (snd finish))
     = [ mkGauge "my_metric_total" "Total number of tests executed" names
           [(["ci"; "my_metric_t1"], 1%N); (["ci"; "my_metric_t2"], 1%N)];
         mkGauge "my_metric_passed" "Number of passed tests" names
           [(["ci"; "my_metric_t1"], 1%N)];
         mkGauge "my_metric_failed" "Number of failed tests" names
           [(["ci"; "my_metric_t2"], 1%N)];
         mkGauge "my_metric_skipped" "Number of skipped tests" names [] ]
  /\ gateway (snd finish)
     = [("http://gateway:9091", registry (self (snd finish)), Some "ci")]
  /\ log (snd finish) = [].
Proof. repeat split; reflexivity. Qed.

(** * Further properties of the code *)

(** ** [_make_metric_name] *)

Lemma re_sub_class_clean (s : string) :
  clean (PyStr.re_sub_class PyStr.pattern_matches "_" s).
Proof.
  unfold clean. induction s as [|c s IH]; simpl; [tauto|].
  rewrite pattern_matches_alphabet.
  destruct (PyStr.in_spec_alphabet c) eqn:Hc; simpl.
  - intros c' [<-|H]; auto.
  - intros c' [<-|H]; auto.
Qed.

Lemma re_sub_class_fixed (s : string) :
  clean s -> PyStr.re_sub_class PyStr.pattern_matches "_" s = s.
Proof.
  unfold clean. induction s as [|c s IH]; simpl; intros H; auto.
  rewrite pattern_matches_alphabet, (H c (or_introl eq_refl)); simpl.
  rewrite IH; auto.
Qed.

Lemma make_metric_name_app (pfx name : string) :
  make_metric_name pfx name
  = (make_metric_name EmptyString pfx ++ make_metric_name EmptyString name)%string.
Proof. unfold make_metric_name. simpl. apply re_sub_class_app. Qed.

Lemma string_app_cancel (a b c : string) : (a ++ b = a ++ c)%string -> b = c.
Proof. induction a as [|x a IH]; simpl; auto. intros [= H]. auto. Qed.

(** [X1] Metric names consist of characters of [[A-Za-z0-9_]] only;
    sanitizing is idempotent: a name that is already sanitized, and more
    generally any prefix + name made of these characters alone, comes
    back unchanged. *)
Theorem X1_metric_name_is_clean_and_sanitizing_idempotent (pfx name : string) :
  clean (make_metric_name pfx name)
  /\ make_metric_name EmptyString (make_metric_name pfx name)
     = make_metric_name pfx name
  /\ make_metric_name pfx (make_metric_name EmptyString name)
     = make_metric_name pfx name
  /\ (clean (pfx ++ name)%string -> make_metric_name pfx name = (pfx ++ name)%string).
Proof.
  split; [apply re_sub_class_clean|].
  split; [apply re_sub_class_fixed, re_sub_class_clean|].
  split; [|apply re_sub_class_fixed].
  rewrite (make_metric_name_app pfx (make_metric_name EmptyString name)).
  rewrite (make_metric_name_app pfx name). f_equal.
  apply re_sub_class_fixed, re_sub_class_clean.
Qed.

Lemma X1_metric_name_is_clean_and_sanitizing_idempotent_witness :
  make_metric_name "pytest_" "test_login" = "pytest_test_login".
Proof.
  apply (X1_metric_name_is_clean_and_sanitizing_idempotent "pytest_" "test_login").
  intros c H. simpl in H.
  repeat (destruct H as [<-|H]; [reflexivity|]). destruct H.
Defined.

(** [X2] Whether two test names collide does not depend on the prefix:
    they get the same metric name under one prefix exactly when they do
    under any other; the metric name is the sanitized prefix followed by
    the sanitized name. *)
Theorem X2_collisions_do_not_depend_on_prefix (p q a b : string) :
  make_metric_name p a
  = (make_metric_name EmptyString p ++ make_metric_name EmptyString a)%string
  /\ (make_metric_name p a = make_metric_name p b
      <-> make_metric_name q a = make_metric_name q b).
Proof.
  split; [apply make_metric_name_app|].
  rewrite (make_metric_name_app p a), (make_metric_name_app p b),
    (make_metric_name_app q a), (make_metric_name_app q b).
  split; intros H; apply string_app_cancel in H; now rewrite H.
Qed.

(** ** [__init__]: the extra labels *)

Lemma split_without_sep (sep : ascii) (s : string) :
  has_char sep s = false -> str_split_once sep s = [s].
Proof.
  unfold has_char. induction s as [|c s IH]; simpl; auto.
  intros H. apply orb_false_iff in H as [Hc Hs].
  rewrite Hc, (IH Hs). reflexivity.
Qed.

Lemma split_at_sep (sep : ascii) (k v : string) :
  has_char sep k = false ->
  str_split_once sep (k ++ String sep v)%string = [k; v].
Proof.
  unfold has_char. induction k as [|c k IH]; simpl.
  - intros _. now rewrite Ascii.eqb_refl.
  - intros H. apply orb_false_iff in H as [Hc Hk].
    rewrite Hc, (IH Hk). reflexivity.
Qed.

Lemma has_char_at_sep (sep : ascii) (k v : string) :
  has_char sep (k ++ String sep v)%string = true.
Proof.
  unfold has_char. induction k as [|c k IH]; simpl.
  - now rewrite Ascii.eqb_refl.
  - rewrite IH. apply orb_true_r.
Qed.

Lemma split_with_sep (sep : ascii) (s : string) :
  has_char sep s = true ->
  exists k v, s = (k ++ String sep v)%string /\ has_char sep k = false.
Proof.
  unfold has_char. induction s as [|c s IH]; simpl; [discriminate|].
  destruct (Ascii.eqb c sep) eqn:Hc; simpl.
  - intros _. apply Ascii.eqb_eq in Hc; subst c.
    exists EmptyString, s. auto.
  - intros H. destruct (IH H) as (k & v & -> & Hk).
    exists (String c k), v. simpl. rewrite Hc. auto.
Qed.

Lemma NoDup_keys_set {V} (k : string) (v : V) (d : dict V) :
  NoDup (PyDict.keys d) -> NoDup (PyDict.keys (PyDict.set k v d)).
Proof.
  intros Hnd. rewrite keys_set.
  destruct (PyDict.contains k d) eqn:Hc; auto.
  apply NoDup_app; repeat split; auto.
  - repeat constructor. intros [].
  - intros a Ha [<-|[]]. apply contains_keys in Ha. congruence.
Qed.

Lemma In_keys_set {V} (k k' : string) (v : V) (d : dict V) :
  In k' (PyDict.keys (PyDict.set k v d)) <-> In k' (PyDict.keys d) \/ k' = k.
Proof.
  rewrite keys_set. destruct (PyDict.contains k d) eqn:Hc.
  - apply contains_keys in Hc. split; [tauto|]. intros [H| ->]; auto.
  - rewrite in_app_iff; simpl. intuition congruence.
Qed.

Lemma init_world (pfx url : string) (job : option string) (raw : list string) :
  PrometheusReport_init pfx url job raw
  = mkWorld (mkPrometheusReport pfx url job
               (fst (fold_left init_label_step raw ([], []))) [] [])
            (snd (fold_left init_label_step raw ([], []))) [].
Proof.
  unfold PrometheusReport_init.
  now destruct (fold_left init_label_step raw ([], [])).
Qed.

Lemma init_label_step_token (acc : dict string * list LogRecord) (k v : string) :
  has_char "=" k = false ->
  init_label_step acc (k ++ String "=" v)%string
  = (PyDict.set k v (fst acc), snd acc).
Proof.
  intros Hk. destruct acc as [labels lg]. unfold init_label_step.
  now rewrite split_at_sep.
Qed.

Lemma init_label_step_invalid (acc : dict string * list LogRecord) (s : string) :
  has_char "=" s = false ->
  init_label_step acc s = (fst acc, snd acc ++ [skipped_label s]).
Proof.
  intros Hs. destruct acc as [labels lg]. unfold init_label_step.
  now rewrite split_without_sep.
Qed.

(** [X3] A label given as [key=value] (the key up to the first ['='], the
    value everything after it) sets [extra_labels[key]] to the value,
    over any earlier label of the same key; the other labels and the log
    are as without it. *)
Theorem X3_label_token_sets_label
  (pfx url : string) (job : option string) (raw : list string) (k v : string) :
  has_char "=" k = false ->
  let w0 := PrometheusReport_init pfx url job raw in
  let w := PrometheusReport_init pfx url job (raw ++ [(k ++ "=" ++ v)%string]) in
  PyDict.get k (extra_labels (self w)) = Some v
  /\ (forall k', k' <> k ->
                 PyDict.get k' (extra_labels (self w))
                 = PyDict.get k' (extra_labels (self w0)))
  /\ log w = log w0.
Proof.
  intros Hk w0 w. unfold w, w0. rewrite !init_world, fold_left_app.
  cbn [fold_left]. change (k ++ "=" ++ v)%string with (k ++ String "=" v)%string.
  rewrite init_label_step_token by auto.
  cbn [fst snd self extra_labels log].
  repeat split.
  - apply get_set_eq.
  - intros k' Hne. apply get_set_ne. congruence.
Qed.

Lemma X3_label_token_sets_label_witness :
  let w := PrometheusReport_init "p_" "http://gateway:9091" None
             (["env=dev"; "team=qa"] ++ ["env=ci=1"]) in
  PyDict.get "env" (extra_labels (self w)) = Some "ci=1".
Proof.
  intros w.
  apply (X3_label_token_sets_label "p_" "http://gateway:9091" None
           ["env=dev"; "team=qa"] "env" "ci=1").
  reflexivity.
Defined.

Lemma init_log (raw : list string) :
  forall acc,
    snd (fold_left init_label_step raw acc)
    = snd acc ++ map skipped_label
                   (filter (fun s => negb (has_char "=" s)) raw).
Proof.
  induction raw as [|s raw IH]; intros acc; cbn [fold_left filter].
  - now rewrite app_nil_r.
  - rewrite IH. destruct (has_char "=" s) eqn:Hs; cbn [negb map].
    + destruct (split_with_sep _ _ Hs) as (k & v & -> & Hk).
      now rewrite (init_label_step_token acc k v Hk).
    + rewrite init_label_step_invalid by auto. cbn [snd].
      now rewrite <- app_assoc.
Qed.

(** [X4] A label without ['='] is never fatal: it is left out of
    [extra_labels] and logged as one warning. The log after [__init__]
    is exactly one warning per such label, in the order given. *)
Theorem X4_labels_without_equals_are_skipped_with_a_warning
  (pfx url : string) (job : option string) (raw : list string) :
  log (PrometheusReport_init pfx url job raw)
  = map skipped_label (filter (fun s => negb (has_char "=" s)) raw)
  /\ forall s, has_char "=" s = false ->
               extra_labels (self (PrometheusReport_init pfx url job (raw ++ [s])))
               = extra_labels (self (PrometheusReport_init pfx url job raw)).
Proof.
  split.
  - rewrite init_world. simpl. now rewrite init_log.
  - intros s Hs. rewrite !init_world, fold_left_app. cbn [fold_left].
    now rewrite init_label_step_invalid.
Qed.

Lemma X4_labels_without_equals_are_skipped_with_a_warning_witness :
  extra_labels (self (PrometheusReport_init "p_" "http://gateway:9091" None
                        (["env=ci"] ++ ["broken"])))
  = extra_labels (self (PrometheusReport_init "p_" "http://gateway:9091" None
                          ["env=ci"])).
Proof.
  apply (X4_labels_without_equals_are_skipped_with_a_warning
           "p_" "http://gateway:9091" None ["env=ci"]).
  reflexivity.
Defined.

Lemma init_keys (raw : list string) :
  forall acc,
    NoDup (PyDict.keys (fst acc)) ->
    NoDup (PyDict.keys (fst (fold_left init_label_step raw acc)))
    /\ forall k,
         In k (PyDict.keys (fst (fold_left init_label_step raw acc)))
         <-> In k (PyDict.keys (fst acc))
             \/ exists v, In (k ++ "=" ++ v)%string raw /\ has_char "=" k = false.
Proof.
  induction raw as [|s raw IH]; intros acc Hnd; cbn [fold_left].
  - split; auto. intros k. split; auto. intros [H|(v & [] & _)]; auto.
  - destruct (has_char "=" s) eqn:Hs.
    + destruct (split_with_sep _ _ Hs) as (k0 & v0 & -> & Hk0).
      rewrite (init_label_step_token acc k0 v0 Hk0).
      destruct (IH (PyDict.set k0 v0 (fst acc), snd acc)) as [Hnd' Hin];
        [now apply NoDup_keys_set|].
      split; auto. intros k. rewrite Hin. simpl. rewrite In_keys_set.
      split.
      * intros [[H| ->]|(v & Hv & Hk)]; eauto.
      * intros [H|(v & [Hv|Hv] & Hk)]; eauto.
        left; right.
        assert (E : str_split_once "=" (k ++ String "=" v)%string
                    = str_split_once "=" (k0 ++ String "=" v0)%string)
          by (f_equal; auto).
        rewrite !split_at_sep in E by auto. congruence.
    + rewrite init_label_step_invalid by auto.
      destruct (IH (fst acc, snd acc ++ [skipped_label s])) as [Hnd' Hin]; auto.
      split; auto. intros k. rewrite Hin. simpl.
      split.
      * intros [H|(v & Hv & Hk)]; eauto.
      * intros [H|(v & [Hv|Hv] & Hk)]; eauto.
        exfalso. subst s.
        change (k ++ "=" ++ v)%string with (k ++ String "=" v)%string in Hs.
        rewrite has_char_at_sep in Hs. discriminate.
Qed.

(** [X5] After [__init__] the keys of [extra_labels] are pairwise
    distinct, and they are exactly the keys of the labels given in the
    form [key=value]. *)
Theorem X5_extra_label_keys
  (pfx url : string) (job : option string) (raw : list string) :
  let extra := extra_labels (self (PrometheusReport_init pfx url job raw)) in
  NoDup (PyDict.keys extra)
  /\ forall k, In k (PyDict.keys extra)
               <-> exists v, In (k ++ "=" ++ v)%string raw
                             /\ has_char "=" k = false.
Proof.
  intros extra. unfold extra. rewrite init_world. simpl.
  destruct (init_keys raw ([], []) (NoDup_nil _)) as [Hnd Hin].
  split; auto. intros k. rewrite Hin. simpl. tauto.
Qed.

Lemma X5_extra_label_keys_witness :
  In "env" (PyDict.keys (extra_labels (self
     (PrometheusReport_init "p_" "http://gateway:9091" None ["env=ci"; "x"])))).
Proof.
  apply (X5_extra_label_keys "p_" "http://gateway:9091" None ["env=ci"; "x"]).
  exists "ci". split; [left; reflexivity | reflexivity].
Defined.

(** ** [_make_labels] and [_get_label_names] *)

Lemma labelvalues_skip_head (names : list string) (k v : string) (d : dict string) :
  ~ In k names -> labelvalues names ((k, v) :: d) = labelvalues names d.
Proof.
  induction names as [|l names IH]; simpl; auto.
  intros H. rewrite IH by tauto.
  destruct (String.eqb l k) eqn:E; auto.
  apply String.eqb_eq in E. subst. tauto.
Qed.

Lemma labelvalues_keys (d : dict string) :
  NoDup (PyDict.keys d) -> labelvalues (PyDict.keys d) d = Some (map snd d).
Proof.
  induction d as [|[k v] d IH]; simpl; auto.
  intros Hnd. inversion Hnd; subst.
  rewrite String.eqb_refl, labelvalues_skip_head, IH; auto.
Qed.

(** [X6] The label names given to every gauge are the keys of
    [extra_labels] with ['testname'] added last if the user gave none, and
    the labels of every series have exactly these names, in this order:
    the values of a series are the values of its labels. Neither call
    changes the plugin, [extra_labels] included. *)
Theorem X6_label_names_match_series_labels (w : World) (t : string) :
  NoDup (PyDict.keys (extra_labels (self w))) ->
  let extra := extra_labels (self w) in
  let names := if PyDict.contains "testname" extra then PyDict.keys extra
               else PyDict.keys extra ++ ["testname"] in
  _get_label_names w = (Ok names, w)
  /\ NoDup names
  /\ In "testname" names
  /\ _make_labels t w = (Ok (make_labels extra t), w)
  /\ PyDict.keys (make_labels extra t) = names
  /\ labelvalues names (make_labels extra t) = Some (map snd (make_labels extra t)).
Proof.
  intros Hnd extra names.
  assert (Hk : forall t', PyDict.keys (make_labels extra t') = names).
  { intros t'. unfold make_labels, names. apply keys_set. }
  assert (Hnd' : NoDup (PyDict.keys (make_labels extra t)))
    by now apply NoDup_keys_set.
  split; [rewrite get_label_names_run; now rewrite Hk|].
  split; [now rewrite <- (Hk t)|].
  split; [rewrite <- (Hk t); apply In_keys_set; now right|].
  split; [reflexivity|].
  split; [apply Hk|].
  rewrite <- (Hk t). now apply labelvalues_keys.
Qed.

Lemma X6_label_names_match_series_labels_witness :
  let w := PrometheusReport_init "p_" "http://gateway:9091" None ["env=ci"] in
  _get_label_names w = (Ok ["env"; "testname"], w)
  /\ labelvalues ["env"; "testname"] (make_labels (extra_labels (self w)) "p_t")
     = Some ["ci"; "p_t"].
Proof.
  intros w.
  destruct (X6_label_names_match_series_labels w "p_t") as (H1 & _ & _ & _ & _ & H2).
  - repeat constructor; simpl; tauto.
  - split; [exact H1 | exact H2].
Defined.

(** ** More on the reducer *)

Lemma get_ensure_record_other (tr : dict TestRecord) (name n : string) :
  name <> n ->
  PyDict.get n (ensure_record name tr) = PyDict.get n tr.
Proof.
  intros Hne. unfold ensure_record.
  destruct (PyDict.contains name tr); auto. now apply get_set_ne.
Qed.

Lemma reduce_get_other pfx (r : Report) (tr : dict TestRecord) (n : string) :
  identity pfx r <> Some n ->
  PyDict.get n (reduce pfx r tr) = PyDict.get n tr.
Proof.
  unfold reduce. destruct (identity pfx r) as [name|]; auto.
  intros Hne. assert (name <> n) by congruence. cbv zeta.
  destruct (PyDict.get name (ensure_record name tr)) as [rec|];
    [|now apply get_ensure_record_other].
  destruct (in_failed_passed (status rec));
    [now apply get_ensure_record_other|].
  destruct (classification r); [|now apply get_ensure_record_other].
  rewrite get_set_ne by auto. now apply get_ensure_record_other.
Qed.

(** [X7] A report touches the record of its own test name only: the
    record of every other name is as before, and so are the prefix, the
    extra labels, the registry and the pushes; the log grows by one record
    at most. *)
Theorem X7_report_touches_only_its_own_record (r : Report) (w : World) :
  (forall n, identity (prefix (self w)) r <> Some n ->
             PyDict.get n (test_results (self (step r w)))
             = PyDict.get n (test_results (self w)))
  /\ prefix (self (step r w)) = prefix (self w)
  /\ pushgateway_url (self (step r w)) = pushgateway_url (self w)
  /\ job_name (self (step r w)) = job_name (self w)
  /\ extra_labels (self (step r w)) = extra_labels (self w)
  /\ registry (self (step r w)) = registry (self w)
  /\ gateway (step r w) = gateway w
  /\ exists l, log (step r w) = log w ++ l /\ length l <= 1.
Proof.
  split.
  - intros n Hn. rewrite step_test_results. now apply reduce_get_other.
  - rewrite step_closed_form.
    destruct (fault _ r _); simpl; repeat split; auto.
    + eexists. split; [reflexivity | simpl; lia].
    + exists []. split; [now rewrite app_nil_r | simpl; lia].
Qed.

Lemma X7_report_touches_only_its_own_record_witness :
  let w := deliver [mkTestReport (Some ["t.py"; "1"; "a"]) (Some "call") (Some "passed")]
             (init "p_" "http://gateway:9091" None []) in
  let r := mkTestReport (Some ["t.py"; "2"; "b"]) (Some "call") (Some "failed") in
  PyDict.get "p_a" (test_results (self (step r w)))
  = PyDict.get "p_a" (test_results (self w)).
Proof.
  intros w r.
  apply (X7_report_touches_only_its_own_record r w). discriminate.
Defined.

Lemma deliver_requests (reports : list Report) :
  forall (w : World) (n : string),
    in_failed_passed (status_of w n) = false ->
    status_of (deliver reports w) n
    = match find is_terminal (requests (prefix (self w)) n reports) with
      | Some st => Some st
      | None => match requests (prefix (self w)) n reports with
                | [] => status_of w n
                | _ :: _ => Some skipped
                end
      end.
Proof.
  induction reports as [|r rs IH]; intros w n Hopen; [reflexivity|].
  rewrite deliver_cons.
  pose proof (step_status_of r w n) as Hstep. rewrite Hopen in Hstep.
  pose proof (step_prefix r w) as Hp.
  unfold requests; cbn [flat_map]; fold (requests (prefix (self w)) n rs).
  destruct (identity (prefix (self w)) r) as [name|];
    [destruct (classification r) as [st|];
       [destruct (String.eqb name n) eqn:En|]|];
    cbn [andb negb app] in *.
  - destruct st; cbn [find is_terminal].
    + rewrite deliver_keeps_terminal; rewrite Hstep; reflexivity.
    + rewrite deliver_keeps_terminal; rewrite Hstep; reflexivity.
    + rewrite IH, Hp, Hstep by (now rewrite Hstep).
      destruct (find is_terminal (requests (prefix (self w)) n rs)); auto.
      destruct (requests (prefix (self w)) n rs); auto.
  - rewrite IH, Hp, Hstep by (now rewrite Hstep). reflexivity.
  - assert (Hsame : status_of (step r w) n = status_of w n)
      by (rewrite Hstep; now destruct (_ && _)).
    rewrite IH, Hp, Hsame by (now rewrite Hsame). reflexivity.
  - rewrite IH, Hp, Hstep by (now rewrite Hstep). reflexivity.
Qed.

(** [X8] The status a run leaves for a test name is decided by the
    statuses its reports ask for (call:passed, call:failed, setup:skipped,
    setup:failed; every other report asks nothing): the first [passed] or
    [failed] among them wins whatever comes before or after; without one,
    the status is [skipped] if anything was asked and [None] otherwise. *)
Theorem X8_first_final_request_wins
  (pfx url : string) (job : option string) (extra : dict string)
  (reports : list Report) (n : string) :
  status_of (deliver reports (init pfx url job extra)) n
  = verdict (requests pfx n reports).
Proof.
  rewrite deliver_requests by reflexivity. unfold verdict. cbn [init self prefix].
  destruct (find is_terminal (requests pfx n reports)); auto.
Qed.

Example first_final_request_wins_example :
  let report wh oc := mkTestReport (Some ["t.py"; "1"; "a"]) (Some wh) (Some oc) in
  requests "p_" "p_a"
    [report "setup" "skipped"; report "teardown" "failed"; report "call" "failed";
     report "call" "passed"]
  = [skipped; failed; passed]
  /\ verdict [skipped; failed; passed] = Some failed.
Proof. split; reflexivity. Qed.

Lemma set_set {V} (k : string) (v v' : V) (d : dict V) :
  PyDict.set k v (PyDict.set k v' d) = PyDict.set k v d.
Proof.
  induction d as [|[k0 v0] d IH]; simpl.
  - now rewrite String.eqb_refl.
  - destruct (String.eqb k k0) eqn:E; simpl; rewrite E; auto.
    now rewrite IH.
Qed.

Lemma ensure_record_present (tr : dict TestRecord) (name : string) (rec : TestRecord) :
  PyDict.get name tr = Some rec -> ensure_record name tr = tr.
Proof.
  intros H. unfold ensure_record, PyDict.contains. now rewrite H.
Qed.

Lemma reduce_idempotent pfx (r : Report) (tr : dict TestRecord) :
  reduce pfx r (reduce pfx r tr) = reduce pfx r tr.
Proof.
  unfold reduce. destruct (identity pfx r) as [name|]; auto. cbv zeta.
  destruct (get_ensure_record tr name) as [rec Hrec]. rewrite Hrec.
  destruct (in_failed_passed (status rec)) eqn:Hfin.
  - rewrite (ensure_record_present _ _ _ Hrec), Hrec, Hfin. reflexivity.
  - destruct (classification r) as [st|] eqn:Hcl.
    + rewrite (ensure_record_present _ name (mkTestRecord (Some st) (phase rec)))
        by apply get_set_eq.
      rewrite get_set_eq. cbn [status phase].
      destruct (in_failed_passed (Some st)); auto. apply set_set.
    + rewrite (ensure_record_present _ _ _ Hrec), Hrec, Hfin. reflexivity.
Qed.

(** [X9] Delivering the same report twice in a row leaves the same
    records as delivering it once. *)
Theorem X9_repeated_report_changes_nothing (r : Report) (w : World) :
  test_results (self (step r (step r w))) = test_results (self (step r w)).
Proof.
  rewrite !step_test_results, step_prefix. apply reduce_idempotent.
Qed.

(** [X10] A report that has a third item in [location], a [when] and an
    [outcome] never faults and logs nothing; and a report for a test that
    already passed or failed returns early and changes nothing at all,
    even if its [when] or [outcome] is missing. *)
Theorem X10_only_malformed_reports_fault (r : Report) (w : World) :
  (forall loc f wh oc,
      location r = Some loc -> nth_error loc 2 = Some f ->
      when r = Some wh -> outcome r = Some oc ->
      fst (logreport_body r w) = Ok tt /\ log (step r w) = log w)
  /\ (forall loc f,
         location r = Some loc -> nth_error loc 2 = Some f ->
         in_failed_passed (status_of w (make_metric_name (prefix (self w)) f)) = true ->
         fst (logreport_body r w) = Ok tt /\ step r w = w).
Proof.
  split.
  - intros loc f wh oc Hloc Hf Hwh Hoc.
    assert (Hnf : fault (prefix (self w)) r (test_results (self w)) = None).
    { unfold fault, missing_attribute. rewrite Hloc, Hf, Hwh, Hoc. cbv zeta.
      destruct (_ || _); simpl;
        destruct (PyDict.get _ _) as [rec|]; auto;
        destruct (in_failed_passed (status rec)); auto. }
    rewrite logreport_body_closed_form, step_closed_form, Hnf. auto.
  - intros loc f Hloc Hf Hfin.
    unfold status_of, status_in in Hfin.
    destruct (PyDict.get _ _) as [rec|] eqn:Hrec; [|discriminate].
    assert (Hnf : fault (prefix (self w)) r (test_results (self w)) = None).
    { unfold fault. rewrite Hloc, Hf. cbv zeta. now rewrite Hrec, Hfin. }
    assert (Hred : reduce (prefix (self w)) r (test_results (self w))
                   = test_results (self w)).
    { unfold reduce, identity. rewrite Hloc, Hf. cbn [option_map]. cbv zeta.
      rewrite (ensure_record_present _ _ _ Hrec), Hrec, Hfin. reflexivity. }
    rewrite logreport_body_closed_form, step_closed_form, Hnf.
    split; auto. unfold reduced. rewrite Hred.
    destruct w as [[? ? ? ? ? ?] ? ?]. reflexivity.
Qed.

Lemma X10_only_malformed_reports_fault_witness :
  let w := deliver [mkTestReport (Some ["t.py"; "1"; "a"]) (Some "call") (Some "passed")]
             (init "p_" "http://gateway:9091" None []) in
  let r := mkTestReport (Some ["t.py"; "1"; "a"]) None None in
  fst (logreport_body r w) = Ok tt /\ step r w = w.
Proof.
  intros w r.
  destruct (X10_only_malformed_reports_fault r w) as (_ & H).
  apply (H ["t.py"; "1"; "a"] "a"); reflexivity.
Defined.

(** [X11] A report of any phase other than ['call'] and ['setup'] (a
    teardown report, say) changes no status and logs nothing, whatever its
    outcome and even without one; it still creates the record of its test,
    which therefore counts in [total]. *)
Theorem X11_other_phases_only_create_the_record
  (w : World) (loc : list string) (f wh : string) (oc : option string) :
  nth_error loc 2 = Some f ->
  wh <> "call" -> wh <> "setup" ->
  let r := mkTestReport (Some loc) (Some wh) oc in
  let name := make_metric_name (prefix (self w)) f in
  (forall n, status_of (step r w) n = status_of w n)
  /\ In name (PyDict.keys (test_results (self (step r w))))
  /\ log (step r w) = log w.
Proof.
  intros Hf Hcall Hsetup r name.
  apply String.eqb_neq in Hcall, Hsetup.
  assert (Hcl : classification r = None).
  { unfold classification, r. cbn [when]. now rewrite Hcall, Hsetup. }
  assert (Hid : identity (prefix (self w)) r = Some name)
    by now apply identity_located.
  split; [|split].
  - intros n. rewrite step_status_of, Hid, Hcl. now destruct (_ && _).
  - rewrite step_test_results, reduce_keys, Hid.
    destruct (PyDict.contains name _) eqn:Hc.
    + now apply contains_keys.
    + apply in_or_app. right. now left.
  - assert (Hnf : fault (prefix (self w)) r (test_results (self w)) = None).
    { unfold fault, missing_attribute, r. cbn [location when]. rewrite Hf.
      cbv zeta. rewrite Hcall, Hsetup. cbn [orb option_map].
      destruct (PyDict.get _ _) as [rec|]; auto.
      now destruct (in_failed_passed (status rec)). }
    now rewrite step_closed_form, Hnf.
Qed.

Lemma X11_other_phases_only_create_the_record_witness :
  let w := init "p_" "http://gateway:9091" None [] in
  let r := mkTestReport (Some ["t.py"; "1"; "a"]) (Some "teardown") None in
  (forall n, status_of (step r w) n = status_of w n)
  /\ In "p_a" (PyDict.keys (test_results (self (step r w))))
  /\ log (step r w) = log w.
Proof.
  intros w r.
  apply (X11_other_phases_only_create_the_record w ["t.py"; "1"; "a"] "a"
           "teardown" None); [reflexivity | discriminate | discriminate].
Defined.

(** ** Records over a run, continued *)

(** [X12] Records are never removed nor reordered and a status never goes
    back to [None]: after any further reports the names recorded before
    are still there, in the same order and ahead of the new ones, and
    every name that had a status has one. *)
Theorem X12_records_and_statuses_persist (reports : list Report) (w : World) :
  (exists added,
      PyDict.keys (test_results (self (deliver reports w)))
      = PyDict.keys (test_results (self w)) ++ added)
  /\ forall n st, status_of w n = Some st ->
                  exists st', status_of (deliver reports w) n = Some st'.
Proof.
  revert w; induction reports as [|r rs IH]; intros w.
  - split; [exists []; now rewrite app_nil_r | eauto].
  - rewrite deliver_cons. destruct (IH (step r w)) as [[added Hk] Hst].
    split.
    + rewrite Hk, step_test_results, reduce_keys.
      destruct (identity _ r) as [name|]; [|eauto].
      destruct (PyDict.contains name _); [eauto|].
      rewrite <- app_assoc. eauto.
    + intros n st Hn.
      assert (exists st1, status_of (step r w) n = Some st1) as [st1 H1].
      { rewrite step_status_of, Hn.
        destruct (identity _ r); [|eauto].
        destruct (_ && _); [|eauto].
        destruct (classification r); eauto. }
      eauto.
Qed.

Lemma X12_records_and_statuses_persist_witness :
  let w := deliver [mkTestReport (Some ["t.py"; "1"; "a"]) (Some "setup") (Some "skipped")]
             (init "p_" "http://gateway:9091" None []) in
  let reports := [mkTestReport (Some ["t.py"; "2"; "b"]) (Some "call") (Some "failed");
                  mkTestReport (Some ["t.py"; "1"; "a"]) (Some "call") (Some "passed")] in
  exists st', status_of (deliver reports w) "p_a" = Some st'.
Proof.
  intros w reports.
  destruct (X12_records_and_statuses_persist reports w) as [_ H].
  apply (H "p_a" skipped). reflexivity.
Defined.

Lemma identities_app pfx (a b : list Report) :
  identities pfx (a ++ b) = identities pfx a ++ identities pfx b.
Proof. unfold identities. apply flat_map_app. Qed.

Lemma deliver_snoc (reports : list Report) (r : Report) (w : World) :
  deliver (reports ++ [r]) w = step r (deliver reports w).
Proof. now rewrite deliver_app. Qed.

(** [X13] [total] lists the test names in the order in which they first
    appeared in the run. *)
Theorem X13_total_is_in_order_of_first_appearance
  (pfx url : string) (job : option string) (extra : dict string)
  (reports : list Report) :
  total_tests (categorize (test_results (self
     (deliver reports (init pfx url job extra)))))
  = rev (nodup string_dec (rev (identities pfx reports))).
Proof.
  rewrite total_tests_categorize.
  induction reports as [|r rs IH] using rev_ind; [reflexivity|].
  rewrite deliver_snoc, step_test_results, reduce_keys, deliver_prefix.
  cbn [init self prefix]. rewrite identities_app.
  unfold identities at 2. cbn [flat_map]. rewrite app_nil_r.
  destruct (identity pfx r) as [name|]; [|now rewrite app_nil_r].
  rewrite rev_app_distr. cbn [rev app nodup].
  destruct (in_dec string_dec name (rev (identities pfx rs))) as [Hin|Hnin].
  - assert (Hc : PyDict.contains name
                   (test_results (self (deliver rs (init pfx url job extra))))
                 = true).
    { apply contains_keys. rewrite IH, <- in_rev, nodup_In. exact Hin. }
    now rewrite Hc.
  - assert (Hc : PyDict.contains name
                   (test_results (self (deliver rs (init pfx url job extra))))
                 = false).
    { apply not_true_iff_false. intros Hc. apply contains_keys in Hc.
      rewrite IH, <- in_rev, nodup_In in Hc. auto. }
    rewrite Hc, IH. reflexivity.
Qed.

Lemma Forall_set {V} (P : V -> Prop) (k : string) (v : V) (d : dict V) :
  Forall (fun item => P (snd item)) d -> P v ->
  Forall (fun item => P (snd item)) (PyDict.set k v d).
Proof.
  intros Hd Hv. induction Hd as [|[k0 v0] d H0 Hd IH]; simpl.
  - repeat constructor. exact Hv.
  - destruct (String.eqb k k0); constructor; auto.
Qed.

Lemma reduce_phase pfx (r : Report) (tr : dict TestRecord) :
  Forall (fun item => phase (snd item) = None) tr ->
  Forall (fun item => phase (snd item) = None) (reduce pfx r tr).
Proof.
  intros H. unfold reduce. destruct (identity pfx r) as [name|]; auto.
  cbv zeta.
  assert (H1 : Forall (fun item => phase (snd item) = None) (ensure_record name tr)).
  { unfold ensure_record. destruct (PyDict.contains name tr); auto.
    now apply (Forall_set (fun v => phase v = None)). }
  destruct (PyDict.get name (ensure_record name tr)) as [rec|] eqn:Hrec; auto.
  destruct (in_failed_passed (status rec)); auto.
  destruct (classification r); auto.
  apply (Forall_set (fun v => phase v = None)); auto. cbn [phase].
  apply get_In in Hrec. rewrite Forall_forall in H1. apply (H1 _ Hrec).
Qed.

Lemma fold_reduce_phase pfx (reports : list Report) :
  forall tr : dict TestRecord,
    Forall (fun item => phase (snd item) = None) tr ->
    Forall (fun item => phase (snd item) = None)
      (fold_left (fun tr r => reduce pfx r tr) reports tr).
Proof.
  induction reports as [|r rs IH]; intros tr H; simpl; auto.
  apply IH. now apply reduce_phase.
Qed.

(** [X14] Throughout a run the names of the records are pairwise distinct
    and the ['phase'] entry of every record stays [None]: it is created
    and never written. *)
Theorem X14_records_have_distinct_names_and_no_phase
  (pfx url : string) (job : option string) (extra : dict string)
  (reports : list Report) :
  let tr := test_results (self (deliver reports (init pfx url job extra))) in
  NoDup (PyDict.keys tr)
  /\ forall name rec, PyDict.get name tr = Some rec -> phase rec = None.
Proof.
  intros tr. unfold tr. rewrite deliver_test_results. cbn [init self prefix test_results].
  split.
  - apply (fold_reduce_keys pfx reports []). constructor.
  - intros name rec Hget. apply get_In in Hget.
    pose proof (fold_reduce_phase pfx reports [] (Forall_nil _)) as H.
    rewrite Forall_forall in H. apply (H _ Hget).
Qed.

Lemma X14_records_have_distinct_names_and_no_phase_witness :
  let reports := [mkTestReport (Some ["t.py"; "1"; "a"]) (Some "call") (Some "passed")] in
  let tr := test_results (self (deliver reports (init "p_" "http://gateway:9091" None []))) in
  phase (mkTestRecord (Some passed) None) = None.
Proof.
  intros reports tr.
  destruct (X14_records_have_distinct_names_and_no_phase
              "p_" "http://gateway:9091" None [] reports) as [_ H].
  apply (H "p_a"). reflexivity.
Defined.

(** ** The groups of the report *)

Lemma NoDup_map_fst_filter {V} (f : string * V -> bool) (l : list (string * V)) :
  NoDup (map fst l) -> NoDup (map fst (filter f l)).
Proof.
  induction l as [|x l IH]; simpl; intros H; [constructor|].
  inversion H; subst. destruct (f x); simpl; auto.
  constructor; auto. intros Hin. apply H2.
  apply in_map_iff in Hin as (y & Hy & Hin). apply filter_In in Hin as [Hin _].
  rewrite <- Hy. now apply in_map.
Qed.

Lemma In_map_fst_filter {V} (f : string * V -> bool) (l : list (string * V)) n :
  In n (map fst (filter f l)) -> In n (map fst l).
Proof.
  intros Hin. apply in_map_iff in Hin as (y & Hy & Hin).
  apply filter_In in Hin as [Hin _]. rewrite <- Hy. now apply in_map.
Qed.

Lemma groups_lengths (tr : dict TestRecord) :
  length tr
  = length (filter (has_status passed) tr) + length (filter (has_status failed) tr)
    + length (filter (has_status skipped) tr) + length (filter no_status tr).
Proof.
  induction tr as [|[name [st ph]] tr IH]; [reflexivity|].
  destruct st as [[| |]|]; cbn [filter has_status no_status status snd length];
    rewrite IH; lia.
Qed.

Lemma categorize_groups (tr : dict TestRecord) :
  categorize tr
  = mkGroups (PyDict.keys tr)
      (map fst (filter (has_status passed) tr))
      (map fst (filter (has_status failed) tr))
      (map fst (filter (has_status skipped) tr)).
Proof. unfold categorize, PyDict.items. now rewrite categorize_fold. Qed.

(** [X15] The groups [passed], [failed] and [skipped] are taken from
    [total], have no member in common and no member twice, and together
    with the tests that have no status they account for every member of
    [total]. *)
Theorem X15_groups_partition_total (tr : dict TestRecord) :
  NoDup (PyDict.keys tr) ->
  let g := categorize tr in
  (forall n, In n (passed_tests g) \/ In n (failed_tests g) \/ In n (skipped_tests g)
             -> In n (total_tests g))
  /\ (forall n, ~ (In n (passed_tests g) /\ In n (failed_tests g)))
  /\ (forall n, ~ (In n (passed_tests g) /\ In n (skipped_tests g)))
  /\ (forall n, ~ (In n (failed_tests g) /\ In n (skipped_tests g)))
  /\ NoDup (total_tests g) /\ NoDup (passed_tests g)
  /\ NoDup (failed_tests g) /\ NoDup (skipped_tests g)
  /\ length (total_tests g)
     = length (passed_tests g) + length (failed_tests g)
       + length (skipped_tests g) + length (filter no_status tr).
Proof.
  intros Hnd g. unfold g. rewrite categorize_groups.
  cbn [total_tests passed_tests failed_tests skipped_tests].
  split; [intros n [H|[H|H]]; eapply In_map_fst_filter; eauto|].
  split; [intros n [H1 H2]; apply in_group in H1, H2; auto; congruence|].
  split; [intros n [H1 H2]; apply in_group in H1, H2; auto; congruence|].
  split; [intros n [H1 H2]; apply in_group in H1, H2; auto; congruence|].
  split; [exact Hnd|].
  split; [now apply NoDup_map_fst_filter|].
  split; [now apply NoDup_map_fst_filter|].
  split; [now apply NoDup_map_fst_filter|].
  unfold PyDict.keys. rewrite !length_map. apply groups_lengths.
Qed.

Lemma X15_groups_partition_total_witness :
  let tr := [("p_a", mkTestRecord (Some passed) None);
             ("p_b", mkTestRecord None None);
             ("p_c", mkTestRecord (Some skipped) None)] in
  length (total_tests (categorize tr))
  = length (passed_tests (categorize tr)) + length (failed_tests (categorize tr))
    + length (skipped_tests (categorize tr)) + length (filter no_status tr).
Proof.
  intros tr.
  apply (X15_groups_partition_total tr).
  repeat constructor; simpl; intuition discriminate.
Defined.

(** ** [pytest_sessionfinish] under faults *)

Lemma quiet_refl w : quiet w w.
Proof. repeat split; auto; [apply registry_le_refl | apply incl_refl]. Qed.

Lemma quiet_trans w1 w2 w3 : quiet w1 w2 -> quiet w2 w3 -> quiet w1 w3.
Proof.
  intros (B1 & U1 & J1 & G1) (B2 & U2 & J2 & G2).
  split; [eapply builds_trans; eauto|]. repeat split; congruence.
Qed.

Lemma quiet_with_log w (l : list LogRecord) : quiet w (with_log (log w ++ l) w).
Proof.
  repeat split; auto; [apply registry_le_refl|].
  intros x Hx. simpl. apply in_or_app. now left.
Qed.

Lemma registry_le_app reg (g : Gauge) : registry_le reg (reg ++ [g]).
Proof.
  intros j g0 Hj. exists g0. split; [|apply gauge_le_refl].
  rewrite nth_error_app1; auto. apply nth_error_Some. congruence.
Qed.

Lemma quiet_register w (g : Gauge) :
  quiet w (with_registry (registry (self w) ++ [g]) w).
Proof.
  split; [|repeat split; auto].
  repeat split; auto; [apply registry_le_app | apply incl_refl].
Qed.

Lemma for_each_frame {A} (R : World -> World -> Prop) (body : A -> M unit) :
  (forall w, R w w) ->
  (forall w1 w2 w3, R w1 w2 -> R w2 w3 -> R w1 w3) ->
  (forall x w, R w (snd (body x w))) ->
  forall xs w, R w (snd (for_each xs body w)).
Proof.
  intros Rrefl Rtrans Hbody. induction xs as [|x xs IH]; intros w; simpl; auto.
  unfold bind. pose proof (Hbody x w) as H1.
  destruct (body x w) as [[[]|e] w1]; simpl in *; eauto.
Qed.

Lemma for_each_raises {A} (P : World -> Prop) (body : A -> M unit)
      (xs : list A) (x : A) :
  In x xs ->
  (forall y w, P w -> P (snd (body y w))) ->
  (forall w, P w -> exists e, fst (body x w) = Raise e) ->
  forall w, P w -> exists e, fst (for_each xs body w) = Raise e.
Proof.
  intros Hin HP Hx. induction xs as [|y xs IH]; [destruct Hin|].
  intros w Hw. simpl. unfold bind.
  pose proof (HP y w Hw) as Hw1.
  destruct Hin as [->|Hin].
  - destruct (Hx w Hw) as [e He].
    destruct (body x w) as [[[]|e'] w1]; simpl in *; [discriminate | eauto].
  - destruct (body y w) as [[[]|e'] w1]; simpl in *; eauto.
Qed.

Section SessionFinishFacts.

Variable Gauge_raises :
  string -> string -> list string -> CollectorRegistry -> option exn.
Variable labels_inc_raises : Gauge -> dict string -> option exn.
Variable push_raises :
  string -> CollectorRegistry -> option string -> option exn.

Lemma increment_series_quiet h t w :
  exists w', increment_series labels_inc_raises h t w = (Ok tt, w') /\ quiet w w'.
Proof.
  unfold increment_series, try_except, _make_labels, gauge_labels_inc, bind,
    gets, ret, raise, logging_error, modify.
  destruct (nth_error (registry (self w)) h) as [g|];
    [|eexists; split; [reflexivity | apply quiet_with_log]].
  destruct (labels_inc_raises g _);
    [eexists; split; [reflexivity | apply quiet_with_log]|].
  destruct (labelvalues _ _) as [key|];
    [|eexists; split; [reflexivity | apply quiet_with_log]].
  eexists; split; [reflexivity|].
  repeat split; auto; [apply update_nth_registry_le | apply incl_refl].
Qed.

(** One turn of the outer loop, run. *)
Lemma build_metric_run label_names mn tests doc w :
  build_metric Gauge_raises labels_inc_raises label_names (mn, tests, doc) w
  = match Gauge_raises (make_metric_name (prefix (self w)) mn) doc label_names
            (registry (self w)) with
    | Some e => (Raise e, w)
    | None =>
        for_each tests
          (increment_series labels_inc_raises (length (registry (self w))))
          (with_registry
             (registry (self w)
              ++ [mkGauge (make_metric_name (prefix (self w)) mn) doc
                    label_names []]) w)
    end.
Proof.
  unfold build_metric, _make_metric_name, Gauge_new, bind, gets, ret, modify,
    raise.
  destruct (Gauge_raises _ _ _ _); reflexivity.
Qed.

Lemma build_metric_quiet label_names metric w :
  quiet w (snd (build_metric Gauge_raises labels_inc_raises label_names metric w)).
Proof.
  destruct metric as [[mn tests] doc]. rewrite build_metric_run.
  destruct (Gauge_raises _ _ _ _); [apply quiet_refl|].
  eapply quiet_trans; [apply quiet_register|].
  apply (for_each_frame quiet).
  - apply quiet_refl.
  - apply quiet_trans.
  - intros t w0. destruct (increment_series_quiet (length (registry (self w))) t w0)
      as (w' & -> & Hq). exact Hq.
Qed.

(** [pytest_sessionfinish] once the loops are done. *)
Lemma sessionfinish_after_loops (w : World) :
  pytest_sessionfinish Gauge_raises labels_inc_raises push_raises w
  = match for_each (metrics_of (categorize (test_results (self w))))
            (build_metric Gauge_raises labels_inc_raises
               (PyDict.keys (make_labels (extra_labels (self w)) EmptyString))) w
    with
    | (Ok _, w1) =>
        match push_raises (pushgateway_url (self w1)) (registry (self w1))
                (job_name (self w1)) with
        | Some e => (Ok tt, with_log (log w1 ++ [(ERROR, ErrorInSessionFinish e)]) w1)
        | None =>
            (Ok tt,
             with_gateway
               (gateway w1 ++ [(pushgateway_url (self w1), registry (self w1),
                                job_name (self w1))]) w1)
        end
    | (Raise e, w1) =>
        (Ok tt, with_log (log w1 ++ [(ERROR, ErrorInSessionFinish e)]) w1)
    end.
Proof.
  unfold pytest_sessionfinish, try_except, sessionfinish_body.
  unfold bind at 1. unfold gets at 1. unfold bind at 1.
  rewrite get_label_names_run. unfold bind at 1.
  destruct (for_each _ _ w) as [[[]|e] w1]; auto.
  unfold bind, gets, push_to_gateway, raise, modify, logging_error.
  destruct (push_raises _ _ _); reflexivity.
Qed.

(** [X16] Whatever the metrics library does, [pytest_sessionfinish]
    returns normally; it leaves the records, the prefix and the extra
    labels as they were, only adds to the registry and to the log, and
    pushes at most once, the registry as it then is, to the configured
    address and job. *)
Theorem X16_sessionfinish_never_raises (w : World) :
  let finish := pytest_sessionfinish Gauge_raises labels_inc_raises push_raises w in
  fst finish = Ok tt
  /\ builds w (snd finish)
  /\ (gateway (snd finish) = gateway w
      \/ gateway (snd finish)
         = gateway w ++ [(pushgateway_url (self w), registry (self (snd finish)),
                          job_name (self w))]).
Proof.
  intros finish. unfold finish. rewrite sessionfinish_after_loops.
  pose proof (for_each_frame quiet
                (build_metric Gauge_raises labels_inc_raises
                   (PyDict.keys (make_labels (extra_labels (self w)) EmptyString)))
                quiet_refl quiet_trans
                (fun x w0 => build_metric_quiet _ x w0)
                (metrics_of (categorize (test_results (self w)))) w) as Hq.
  destruct (for_each _ _ w) as [[[]|e] w1]; cbn [snd] in Hq;
    destruct Hq as (B & U & J & G).
  - destruct (push_raises _ _ _); cbn [fst snd].
    + split; auto. split; [|left; exact G].
      eapply builds_trans; [exact B | apply quiet_with_log].
    + split; auto. split.
      * destruct B as (B1 & B2 & B3 & B4 & B5). repeat split; auto.
      * right. simpl. now rewrite U, J, G.
  - cbn [fst snd]. split; auto. split; [|left; exact G].
    eapply builds_trans; [exact B | apply quiet_with_log].
Qed.

(** [X17] A gauge that cannot be created ends the whole report: if the
    constructor of one of the four gauges raises whatever the registry
    holds, nothing is pushed and the fault is logged once as an error of
    the session finish; the call still returns normally. *)
Theorem X17_gauge_fault_prevents_the_push
  (w : World) (metric_name : string) (tests : list string) (doc : string) :
  In (metric_name, tests, doc) (metrics_of (categorize (test_results (self w)))) ->
  (forall reg,
      Gauge_raises (make_metric_name (prefix (self w)) metric_name) doc
        (PyDict.keys (make_labels (extra_labels (self w)) EmptyString)) reg
      <> None) ->
  let finish := pytest_sessionfinish Gauge_raises labels_inc_raises push_raises w in
  fst finish = Ok tt
  /\ gateway (snd finish) = gateway w
  /\ exists e l, log (snd finish) = l ++ [(ERROR, ErrorInSessionFinish e)].
Proof.
  intros Hin Hraise finish. unfold finish. rewrite sessionfinish_after_loops.
  set (names := PyDict.keys (make_labels (extra_labels (self w)) EmptyString)).
  pose proof (for_each_frame quiet
                (build_metric Gauge_raises labels_inc_raises names)
                quiet_refl quiet_trans
                (fun x w0 => build_metric_quiet _ x w0)
                (metrics_of (categorize (test_results (self w)))) w) as Hq.
  destruct (for_each_raises (fun w0 => quiet w w0)
              (build_metric Gauge_raises labels_inc_raises names)
              (metrics_of (categorize (test_results (self w))))
              (metric_name, tests, doc) Hin) with (w := w) as [e He].
  - intros y w0 Hw0. eapply quiet_trans; [exact Hw0 | apply build_metric_quiet].
  - intros w0 ((Hp & _) & _). rewrite build_metric_run, Hp.
    destruct (Gauge_raises _ _ _ (registry (self w0))) as [e|] eqn:E;
      [exists e; reflexivity | destruct (Hraise _ E)].
  - apply quiet_refl.
  - destruct (for_each _ _ w) as [[[]|e'] w1]; cbn [fst snd] in *;
      [discriminate|].
    destruct Hq as (_ & _ & _ & G).
    split; auto. split; [exact G|]. exists e', (log w1). reflexivity.
Qed.

End SessionFinishFacts.

Lemma X17_gauge_fault_prevents_the_push_witness :
  let Gauge_bad :=
    fun (name _ : string) (_ : list string) (_ : CollectorRegistry) =>
      if (name =? "p_failed")%string then Some (ValueError "Invalid metric name")
      else None in
  let w := deliver [mkTestReport (Some ["t.py"; "1"; "a"]) (Some "call") (Some "passed")]
             (init "p_" "http://gateway:9091" None []) in
  let finish := pytest_sessionfinish Gauge_bad (fun _ _ => None)
                  (fun _ _ _ => None) w in
  fst finish = Ok tt
  /\ gateway (snd finish) = gateway w
  /\ exists e l, log (snd finish) = l ++ [(ERROR, ErrorInSessionFinish e)].
Proof.
  intros Gauge_bad w finish.
  apply (X17_gauge_fault_prevents_the_push Gauge_bad (fun _ _ => None)
           (fun _ _ _ => None) w "failed" [] "Number of failed tests").
  - right; right; left; reflexivity.
  - intros reg. discriminate.
Defined.

(** ** The report when nothing faults *)

Lemma inc_sample_fresh (key : list string) (samples : list (list string * N)) :
  (forall k v, In (k, v) samples -> k <> key) ->
  inc_sample key samples = samples ++ [(key, 1%N)].
Proof.
  induction samples as [|[k v] rest IH]; intros H; simpl; auto.
  destruct (labelvalues_eqb key k) eqn:E.
  - apply labelvalues_eqb_eq in E. subst.
    destruct (H k v (or_introl eq_refl) eq_refl).
  - rewrite IH; auto. intros k' v' Hin. apply (H k' v'). now right.
Qed.

Lemma set_values_injective {V} (k : string) (v v' : V) (d : dict V) :
  map snd (PyDict.set k v d) = map snd (PyDict.set k v' d) -> v = v'.
Proof.
  induction d as [|[k0 v0] d IH]; simpl.
  - now intros [= ->].
  - destruct (String.eqb k k0); simpl; intros [= H]; auto.
Qed.

Lemma update_nth_last {A} (f : A -> A) (l : list A) (x : A) :
  update_nth (length l) f (l ++ [x]) = l ++ [f x].
Proof. induction l as [|y l IH]; simpl; auto. now rewrite IH. Qed.

Lemma nth_error_last {A} (l : list A) (x : A) :
  nth_error (l ++ [x]) (length l) = Some x.
Proof. rewrite nth_error_app2, Nat.sub_diag; auto. Qed.

Lemma with_registry_twice r1 r2 w :
  with_registry r2 (with_registry r1 w) = with_registry r2 w.
Proof. reflexivity. Qed.

Lemma with_registry_same w : with_registry (registry (self w)) w = w.
Proof. destruct w as [[? ? ? ? ? ?] ? ?]. reflexivity. Qed.

Section ReportWithoutFaults.

Variable Gauge_raises :
  string -> string -> list string -> CollectorRegistry -> option exn.
Variable labels_inc_raises : Gauge -> dict string -> option exn.
Variable push_raises :
  string -> CollectorRegistry -> option string -> option exn.

Hypothesis Gauge_never_raises :
  forall name doc labelnames reg, Gauge_raises name doc labelnames reg = None.
Hypothesis labels_inc_never_raises :
  forall g labels, labels_inc_raises g labels = None.

Variable w : World.
Hypothesis extra_keys_distinct : NoDup (PyDict.keys (extra_labels (self w))).

(** The inner loop, after the tests [done] and before the tests [tests]. *)
Lemma series_loop_exact (name doc : string) (tests : list string) :
  forall (done : list string) (reg : CollectorRegistry),
    NoDup (done ++ tests) ->
    let names := PyDict.keys (make_labels (extra_labels (self w)) EmptyString) in
    for_each tests (increment_series labels_inc_raises (length reg))
      (with_registry
         (reg ++ [mkGauge name doc names (series_of (extra_labels (self w)) done)])
         w)
    = (Ok tt,
       with_registry
         (reg ++ [mkGauge name doc names
                    (series_of (extra_labels (self w)) (done ++ tests))])
         w).
Proof.
  induction tests as [|t tests IH]; intros done reg Hnd names.
  - now rewrite app_nil_r.
  - cbn [for_each]. unfold bind.
    rewrite (increment_series_built labels_inc_raises (length reg) t _
               (mkGauge name doc names (series_of (extra_labels (self w)) done))
               (map snd (make_labels (extra_labels (self w)) t))).
    + cbn [registry self with_registry g_name g_documentation g_labelnames
             g_samples].
      rewrite update_nth_last. cbn [g_name g_documentation g_labelnames g_samples].
      rewrite inc_sample_fresh.
      * change (series_of (extra_labels (self w)) done
                ++ [(map snd (make_labels (extra_labels (self w)) t), 1%N)])
          with (series_of (extra_labels (self w)) done
                ++ series_of (extra_labels (self w)) [t]).
        unfold series_of at 1 2. rewrite <- map_app.
        fold (series_of (extra_labels (self w)) (done ++ [t])).
        specialize (IH (done ++ [t]) reg).
        rewrite <- app_assoc in IH. apply IH. exact Hnd.
      * intros k v Hin Hk. unfold series_of in Hin.
        apply in_map_iff in Hin as (t' & [= <- <-] & Hin).
        apply set_values_injective in Hk. subst t'.
        apply NoDup_remove_2 in Hnd. apply Hnd, in_or_app. now left.
    + apply nth_error_last.
    + apply labels_inc_never_raises.
    + cbn [g_labelnames with_registry self extra_labels]. unfold names.
      rewrite (keys_make_labels _ EmptyString t).
      apply labelvalues_keys. now apply NoDup_keys_set.
Qed.

Lemma build_metric_exact (reg : CollectorRegistry) (mn : string)
      (tests : list string) (doc : string) :
  NoDup tests ->
  build_metric Gauge_raises labels_inc_raises
    (PyDict.keys (make_labels (extra_labels (self w)) EmptyString))
    (mn, tests, doc) (with_registry reg w)
  = (Ok tt,
     with_registry
       (reg ++ [gauge_of (prefix (self w)) (extra_labels (self w)) (mn, tests, doc)])
       w).
Proof.
  intros Hnd. rewrite build_metric_run, Gauge_never_raises.
  cbn [registry self with_registry prefix]. rewrite with_registry_twice.
  apply (series_loop_exact _ doc tests [] reg Hnd).
Qed.

Lemma metrics_loop_exact (metrics : list (string * list string * string)) :
  Forall (fun m => NoDup (snd (fst m))) metrics ->
  forall reg,
    for_each metrics
      (build_metric Gauge_raises labels_inc_raises
         (PyDict.keys (make_labels (extra_labels (self w)) EmptyString)))
      (with_registry reg w)
    = (Ok tt,
       with_registry
         (reg ++ map (gauge_of (prefix (self w)) (extra_labels (self w))) metrics)
         w).
Proof.
  induction 1 as [|[[mn tests] doc] metrics Hm _ IH]; intros reg.
  - cbn [for_each map]. now rewrite app_nil_r.
  - cbn [for_each map]. unfold bind.
    rewrite build_metric_exact by exact Hm.
    rewrite IH, <- app_assoc. reflexivity.
Qed.

Hypothesis names_distinct : NoDup (PyDict.keys (test_results (self w))).

(** [X18] When no call of the metrics library raises,
    [pytest_sessionfinish] adds exactly four gauges to the registry, named
    prefix + total, passed, failed, skipped (sanitized), with the label
    names of the run and, for each test of the group in order, one series
    of value 1 keyed by the values of its labels; it then pushes the
    registry once, and nothing is logged. If the push raises instead, the
    gauges are built all the same, nothing is recorded as pushed and the
    fault is logged as an error. *)
Theorem X18_report_without_faults :
  let groups := categorize (test_results (self w)) in
  let reg' := registry (self w)
              ++ built_gauges (prefix (self w)) (extra_labels (self w)) groups in
  let url := pushgateway_url (self w) in
  let job := job_name (self w) in
  let finish := pytest_sessionfinish Gauge_raises labels_inc_raises push_raises w in
  fst finish = Ok tt
  /\ registry (self (snd finish)) = reg'
  /\ match push_raises url reg' job with
     | None =>
         gateway (snd finish) = gateway w ++ [(url, reg', job)]
         /\ log (snd finish) = log w
     | Some e =>
         gateway (snd finish) = gateway w
         /\ log (snd finish) = log w ++ [(ERROR, ErrorInSessionFinish e)]
     end.
Proof.
  intros groups reg' url job finish.
  assert (Hgroups : Forall (fun m => NoDup (snd (fst m))) (metrics_of groups)).
  { unfold groups. rewrite categorize_groups. unfold metrics_of.
    cbn [total_tests passed_tests failed_tests skipped_tests].
    repeat constructor; cbn [fst snd]; auto;
      now apply NoDup_map_fst_filter. }
  pose proof (metrics_loop_exact _ Hgroups (registry (self w))) as Hloop.
  rewrite with_registry_same in Hloop.
  unfold finish. rewrite sessionfinish_after_loops. fold groups. rewrite Hloop.
  cbn [registry self with_registry pushgateway_url job_name].
  fold url job. change (registry (self w) ++ map _ (metrics_of groups)) with reg'.
  destruct (push_raises url reg' job); cbn [fst snd]; auto.
Qed.

End ReportWithoutFaults.

Lemma X18_report_without_faults_witness :
  let no_gauge_fault :=
    fun (_ _ : string) (_ : list string) (_ : CollectorRegistry) => @None exn in
  let no_series_fault := fun (_ : Gauge) (_ : dict string) => @None exn in
  let push_fails :=
    fun (_ : string) (_ : CollectorRegistry) (_ : option string) =>
      Some (OtherException "connection refused") in
  let report f oc := mkTestReport (Some ["t.py"; "1"; f]) (Some "call") (Some oc) in
  let w := deliver [report "a" "passed"; report "b" "failed"]
             (PrometheusReport_init "p_" "http://gateway:9091" (Some "ci") ["env=ci"]) in
  let finish := pytest_sessionfinish no_gauge_fault no_series_fault push_fails w in
  fst finish = Ok tt
  /\ registry (self (snd finish))
     = [ mkGauge "p_total" "Total number of tests executed" ["env"; "testname"]
           [(["ci"; "p_a"], 1%N); (["ci"; "p_b"], 1%N)];
         mkGauge "p_passed" "Number of passed tests" ["env"; "testname"]
           [(["ci"; "p_a"], 1%N)];
         mkGauge "p_failed" "Number of failed tests" ["env"; "testname"]
           [(["ci"; "p_b"], 1%N)];
         mkGauge "p_skipped" "Number of skipped tests" ["env"; "testname"] [] ]
  /\ gateway (snd finish) = []
  /\ log (snd finish)
     = [(ERROR, ErrorInSessionFinish (OtherException "connection refused"))].
Proof.
  intros no_gauge_fault no_series_fault push_fails report w finish.
  destruct (X18_report_without_faults no_gauge_fault no_series_fault push_fails
              (fun _ _ _ _ => eq_refl) (fun _ _ => eq_refl) w) as (H1 & H2 & H3).
  - repeat constructor; simpl; tauto.
  - repeat constructor; simpl; intuition discriminate.
  - split; [exact H1|]. split; [exact H2|]. exact H3.
Defined.

(** ** [pytest_configure] and [pytest_unconfigure] *)

Lemma truthy_false (v : option string) :
  truthy v = false <-> v = None \/ v = Some EmptyString.
Proof.
  destruct v as [s|]; simpl.
  - rewrite negb_false_iff, String.eqb_eq. split.
    + intros ->. now right.
    + intros [H|[= H]]; [discriminate | auto].
  - split; auto.
Qed.

Lemma truthy_true (v : option string) (s : string) :
  v = Some s -> s <> EmptyString -> truthy v = true.
Proof.
  intros -> Hs. simpl. apply negb_true_iff. now apply String.eqb_neq.
Qed.

(** [X19] The plugin is created and registered exactly when both the
    gateway address and the metric prefix are given and not empty: then
    [config._prometheus] is a fresh plugin with these values, no records
    and an empty registry, handed to [register]; in every other case, an
    address without a prefix included, [pytest_configure] changes nothing
    and logs nothing. *)
Theorem X19_plugin_is_enabled_by_url_and_prefix
  (PluginManager : Type)
  (register : PrometheusReport -> PluginManager -> PluginManager)
  (config : Config PluginManager) (lg : list LogRecord) :
  let configured := pytest_configure PluginManager register config lg in
  (forall url pfx,
      prometheus_pushgateway_url config = Some url -> url <> EmptyString ->
      prometheus_metric_prefix config = Some pfx -> pfx <> EmptyString ->
      exists plugin warnings,
        _prometheus (fst configured) = Some plugin
        /\ pluginmanager (fst configured) = register plugin (pluginmanager config)
        /\ prefix plugin = pfx
        /\ pushgateway_url plugin = url
        /\ job_name plugin = prometheus_job_name config
        /\ test_results plugin = []
        /\ registry plugin = []
        /\ snd configured = lg ++ warnings)
  /\ (prometheus_pushgateway_url config = None
      \/ prometheus_pushgateway_url config = Some EmptyString
      \/ prometheus_metric_prefix config = None
      \/ prometheus_metric_prefix config = Some EmptyString ->
      configured = (config, lg)).
Proof.
  intros configured. unfold configured, pytest_configure. split.
  - intros url pfx Hu Hune Hp Hpne.
    rewrite (truthy_true _ _ Hu Hune), (truthy_true _ _ Hp Hpne).
    cbn [andb]. unfold PrometheusReport_new. rewrite Hu, Hp, init_world.
    cbn [self log fst snd]. eexists _, _. repeat split.
  - intros H.
    assert (Hf : truthy (prometheus_pushgateway_url config)
                 && truthy (prometheus_metric_prefix config) = false).
    { apply andb_false_iff. rewrite !truthy_false. tauto. }
    now rewrite Hf.
Qed.

Lemma X19_plugin_is_enabled_by_url_and_prefix_witness :
  let config := mkConfig (Some "http://gateway:9091") None None (Some "ci") None
                  (@nil PrometheusReport) in
  pytest_configure (list PrometheusReport) cons config [] = (config, []).
Proof.
  intros config.
  apply (X19_plugin_is_enabled_by_url_and_prefix (list PrometheusReport) cons
           config []).
  right; right; left; reflexivity.
Defined.

(** [X20] [pytest_unconfigure] removes [config._prometheus] and hands the
    same plugin to [unregister]; without the attribute it does nothing, so
    a second call changes nothing. After [pytest_configure] on a config
    without the attribute it restores the config, provided pytest's
    [unregister] undoes [register]. *)
Theorem X20_unconfigure_undoes_configure
  (PluginManager : Type)
  (register unregister : PrometheusReport -> PluginManager -> PluginManager)
  (config : Config PluginManager) (lg : list LogRecord) :
  (forall plugin,
      _prometheus config = Some plugin ->
      _prometheus (pytest_unconfigure PluginManager unregister config) = None
      /\ pluginmanager (pytest_unconfigure PluginManager unregister config)
         = unregister plugin (pluginmanager config))
  /\ (_prometheus config = None ->
      pytest_unconfigure PluginManager unregister config = config)
  /\ pytest_unconfigure PluginManager unregister
       (pytest_unconfigure PluginManager unregister config)
     = pytest_unconfigure PluginManager unregister config
  /\ (_prometheus config = None ->
      (forall plugin pm, unregister plugin (register plugin pm) = pm) ->
      pytest_unconfigure PluginManager unregister
        (fst (pytest_configure PluginManager register config lg))
      = config).
Proof.
  unfold pytest_unconfigure, pytest_configure. cbv zeta.
  split; [|split; [|split]].
  - intros plugin H. rewrite H. auto.
  - intros H. rewrite H. reflexivity.
  - destruct (_prometheus config) eqn:E; cbn; rewrite ?E; reflexivity.
  - intros Hnone Hundo.
    destruct (truthy _ && truthy _).
    + destruct (PrometheusReport_new PluginManager config) as [plugin warnings].
      cbn. rewrite Hundo. destruct config; cbn in *. now subst.
    + cbn. now rewrite Hnone.
Qed.

Lemma X20_unconfigure_undoes_configure_witness :
  let config := mkConfig (Some "http://gateway:9091") (Some "p_") (Some ["env=ci"])
                  (Some "ci") None (@nil PrometheusReport) in
  pytest_unconfigure (list PrometheusReport) (fun _ pm => tl pm)
    (fst (pytest_configure (list PrometheusReport) cons config []))
  = config.
Proof.
  intros config.
  apply (X20_unconfigure_undoes_configure (list PrometheusReport) cons
           (fun _ pm => tl pm) config []).
  - reflexivity.
  - reflexivity.
Defined.

Lemma X2_collisions_do_not_depend_on_prefix_witness :
  make_metric_name "other." "test[a-b]" = make_metric_name "other." "test[a.b]".
Proof.
  apply (X2_collisions_do_not_depend_on_prefix "p_" "other." "test[a-b]" "test[a.b]").
  reflexivity.
Defined.

(** ** Faults while the report is built *)




Section SeriesFaults.

Variable Gauge_raises :
  string -> string -> list string -> CollectorRegistry -> option exn.
Variable labels_inc_raises : Gauge -> dict string -> option exn.
Variable push_raises :
  string -> CollectorRegistry -> option string -> option exn.

Variable extra : dict string.
Variable pfx : string.




End SeriesFaults.



